(** * Digital Library Manager: the persistence, validation and CRUD core of
    [book.py], embedded in Rocq.

    The Streamlit script keeps the collection in [st.session_state.library],
    mirrors it in the file [library.json] and talks to the user through
    [st.error], [st.warning], [st.success] and [st.toast].  The embedding
    threads these three things through every operation as an explicit
    [world].

    Conventions of the model:
    - a Python value that [json.load] can produce is a [json]; a [dict] is a
      finite map from strings ([gmap string json]), so that Python's
      order-insensitive [==] on dicts is Leibniz equality here;
    - a [str] is a [string] of 8-bit characters, its UTF-8 text; [lower] is
      [str.lower] on the ASCII letters, which is all of [str.lower] where a
      string is compared with 'true', '1' or 'yes', and [str_lower] is
      [str.lower] in full;
    - [json.dump], [json.dumps], [json.load], [str] applied to floats, lists
      and dicts, and what [str.lower] does beyond the ASCII letters belong
      to the Python runtime, not to [book.py]; they are the fields of the
      class [Builtins];
    - an uncaught Python exception is the [Raised] outcome. *)

From Stdlib Require Import ZArith String Ascii List Lia DecimalString.
From stdpp Require Import base option list gmap strings fin_maps.
Import ListNotations.

#[local] Set Warnings "-register-all".
#[local] Open Scope string_scope.

(** ** Python values *)

Inductive json : Type :=
| JNull
| JBool (b : bool)
| JInt (n : Z)
| JFloat (bits : Z)                 (* the 64 bits of an IEEE-754 double *)
| JStr (s : string)
| JArr (items : list json)
| JObj (fields : gmap string json).

Inductive exn : Type :=
| KeyError (key : string)
| TypeError
| AttributeError
| ValueError
| UnicodeDecodeError
| RecursionError
| OSError
| StreamlitDuplicateElementKey.

Inductive outcome (A : Type) : Type :=
| Done (a : A)
| Raised (e : exn).
Arguments Done {A} a.
Arguments Raised {A} e.

#[global] Instance outcome_ret : MRet outcome := fun A a => Done a.

#[global] Instance outcome_bind : MBind outcome := fun A B k m =>
  match m with
  | Done a => k a
  | Raised e => Raised e
  end.

(** What [json.load] gives back: a value, or an exception with its message,
    a [json.JSONDecodeError] unless [load_raises] below names another. *)
Inductive parsed : Type :=
| Parsed (v : json)
| JSONDecodeError (message : string).

(** The part of the Python runtime the script calls.  [doc] is a JSON file
    as it is found.

    [json_loads] is what reading it gives: a value, or the message of the
    exception raised.  [load_raises] names that exception when it is one
    that [load_library] does not catch, that is anything but
    [json.JSONDecodeError]: [ValueError] for an integer of too many digits,
    [UnicodeDecodeError] for bytes that are not UTF-8, [RecursionError] for
    too deep a nesting, [OSError] for a file that cannot be opened or read. *)
Class Builtins (doc : Type) : Type := {
  json_dumps : option nat -> json -> doc;   (* [indent], value *)
  json_loads : doc -> parsed;
  load_raises : doc -> option exn;
  str_other : json -> string;               (* [str] of a float, list or dict *)
  lower_non_ascii : string -> string        (* [str.lower], the ASCII letters being lowered *)
}.

(** ** Strings *)

Definition lower_ascii (c : ascii) : ascii :=
  let n := nat_of_ascii c in
  if (65 <=? n)%nat && (n <=? 90)%nat then ascii_of_nat (n + 32) else c.

(** [str.lower] on the ASCII letters, byte by byte: in UTF-8 the bytes of
    the other characters are all above 127 and stay as they are. *)
Fixpoint lower (s : string) : string :=
  match s with
  | EmptyString => EmptyString
  | String c rest => String (lower_ascii c) (lower rest)
  end.

Fixpoint startswith (s p : string) {struct p} : bool :=
  match p, s with
  | EmptyString, _ => true
  | String _ _, EmptyString => false
  | String a p', String b s' => Ascii.eqb a b && startswith s' p'
  end.

(** [needle in hay] on two [str]. *)
Fixpoint py_in (needle hay : string) : bool :=
  startswith hay needle ||
  match hay with
  | EmptyString => false
  | String _ rest => py_in needle rest
  end.

Definition str_of_nat (n : nat) : string :=
  NilZero.string_of_uint (Nat.to_uint n).

Definition str_of_Z (n : Z) : string :=
  NilZero.string_of_int (Z.to_int n).

(** ** Python operations on values *)

Definition isinstance_list (v : json) : bool :=
  match v with JArr _ => true | _ => false end.

Definition isinstance_dict (v : json) : bool :=
  match v with JObj _ => true | _ => false end.

Definition isinstance_str (v : json) : bool :=
  match v with JStr _ => true | _ => false end.

(** Truth value of an object ([if x:], [not x]). *)
Definition truthy (v : json) : bool :=
  match v with
  | JNull => false
  | JBool b => b
  | JInt n => negb (n =? 0)%Z
  | JFloat bits => negb (bits =? 0)%Z && negb (bits =? 2 ^ 63)%Z
  | JStr s => negb (s =? "")%string
  | JArr items => match items with [] => false | _ => true end
  | JObj fields => negb (bool_decide (fields = ∅))
  end.

(** [v[key]] with a [str] key. *)
Definition getitem (v : json) (key : string) : outcome json :=
  match v with
  | JObj fields =>
      match fields !! key with
      | Some x => Done x
      | None => Raised (KeyError key)
      end
  | _ => Raised TypeError
  end.

(** [for x in v]: the elements a [for] loop visits. *)
Definition iterate (v : json) : outcome (list json) :=
  match v with
  | JArr items => Done items
  | JObj fields => Done (JStr <$> (map_to_list fields).*1)
  | JStr s => Done ((fun c => JStr (String c EmptyString)) <$> list_ascii_of_string s)
  | _ => Raised TypeError
  end.

(** [v.append(x)]. *)
Definition append (v x : json) : outcome json :=
  match v with
  | JArr items => Done (JArr (items ++ [x]))
  | _ => Raised AttributeError
  end.

Definition str {doc} `{Builtins doc} (v : json) : string :=
  match v with
  | JStr s => s
  | JNull => "None"
  | JBool true => "True"
  | JBool false => "False"
  | JInt n => str_of_Z n
  | _ => str_other v
  end.

(** [s.lower()]: the ASCII letters are lowered as [lower] does, and the
    runtime does the rest: the other cased letters, context included (a
    capital sigma that ends a word becomes a final sigma). *)
Definition str_lower {doc} `{Builtins doc} (s : string) : string :=
  lower_non_ascii (lower s).

(** ** The world of the script *)

Inductive ui_event : Type :=
| st_error (text : string)
| st_warning (text : string)
| st_success (text : string)
| st_toast (text icon : string)
| st_balloons
| book_card (book : json) (status : string).

Record world (doc : Type) : Type := World {
  library : json;                (* [st.session_state.library] *)
  library_json : option doc;     (* the file 'library.json'; [None]: no such file *)
  ui : list ui_event             (* what was shown, oldest first *)
}.
Arguments World {doc} library library_json ui.
Arguments library {doc} w.
Arguments library_json {doc} w.
Arguments ui {doc} w.

Definition set_library {doc} (v : json) (w : world doc) : world doc :=
  World v (library_json w) (ui w).

Definition show {doc} (e : ui_event) (w : world doc) : world doc :=
  World (library w) (library_json w) (ui w ++ [e]).

Definition required_keys : list string :=
  ["title"; "author"; "year"; "genre"; "read"].

(** ** The script *)

Section Script.
Context {doc : Type} `{Builtins doc}.

(** [save_library], lines 66-68. *)
Definition save_library (w : world doc) : world doc :=
  World (library w) (Some (json_dumps None (library w))) (ui w).

(** The test of line 84:
    [isinstance(item, dict) and all(key in item for key in [...])]. *)
Definition valid_entry (item : json) : bool :=
  match item with
  | JObj fields =>
      forallb (fun key => bool_decide (is_Some (fields !! key))) required_keys
  | _ => false
  end.

(** Lines 86-87, on an entry that passed the test of line 84. *)
Definition convert_legacy_read (item : json) : json :=
  match item with
  | JObj fields =>
      match fields !! "read" with
      | Some (JStr s) => JObj (<["read" := JBool (lower s =? "true")]> fields)
      | _ => item
      end
  | _ => item
  end.

(** The loop of lines 83-90; [idx] is the counter of [enumerate]. *)
Fixpoint load_entries (idx : nat) (raw_data valid_books : list json)
    (w : world doc) : list json * world doc :=
  match raw_data with
  | [] => (valid_books, w)
  | item :: rest =>
      if valid_entry item then
        load_entries (S idx) rest (valid_books ++ [convert_legacy_read item]) w
      else
        load_entries (S idx) rest valid_books
          (show (st_warning ("Removed invalid entry at position " +:+ str_of_nat idx)) w)
  end.

(** [load_library], lines 70-99, when [open] and [json.load] raise nothing
    but the two exceptions it catches. *)
Definition load_library (w : world doc) : world doc :=
  match library_json w with
  | None =>                                             (* FileNotFoundError *)
      set_library (JArr []) w
  | Some text =>
      match json_loads text with
      | JSONDecodeError _ =>
          set_library (JArr [])
            (show (st_error "⚠️ Corrupted library file: Resetting to empty library") w)
      | Parsed (JArr raw_data) =>
          let '(valid_books, w1) := load_entries 0 raw_data [] w in
          show (st_toast ("Loaded " +:+ str_of_nat (length valid_books) +:+ " valid books") "✅")
            (set_library (JArr valid_books) w1)
      | Parsed _ =>
          set_library (JArr [])
            (show (st_error "⚠️ Invalid library format: Resetting to empty library") w)
      end
  end.

(** [load_library], lines 70-99, in full: an exception of [open] or
    [json.load] other than [FileNotFoundError] and [json.JSONDecodeError]
    passes through its [try]. *)
Definition load_library_call (w : world doc) : outcome (world doc) :=
  match library_json w with
  | None => Done (load_library w)
  | Some text =>
      match load_raises text with
      | Some e => Raised e
      | None => Done (load_library w)
      end
  end.

(** The first definition of [file_handling], lines 101-156.  The second
    definition, lines 349-381, rebinds the name, so the script never runs
    this one. *)

(** Lines 141-144. *)
Definition auto_fix (fields : gmap string json) : gmap string json :=
  let fields1 :=
    if bool_decide (is_Some (fields !! "read")) then fields
    else <["read" := JBool false]> fields in
  match fields1 !! "read" with
  | Some (JStr s) =>
      <["read" := JBool (bool_decide (lower s ∈ ["true"; "1"; "yes"]))]> fields1
  | _ => fields1
  end.

(** The loop of lines 138-147. *)
Fixpoint import_entries (data valid_books : list json) (error_count : nat)
    : list json * nat :=
  match data with
  | [] => (valid_books, error_count)
  | item :: rest =>
      match item with
      | JObj fields => import_entries rest (valid_books ++ [JObj (auto_fix fields)]) error_count
      | _ => import_entries rest valid_books (error_count + 1)
      end
  end.

(** The result is the data offered for download, if any, and the new
    world; [uploaded_file] is the text of the uploaded file, if any. *)
Definition file_handling_shadowed (uploaded_file : option doc) (w : world doc)
    : option doc * world doc :=
  let '(download, w0) :=
    if truthy (library w) then (Some (json_dumps (Some 2) (library w)), w)
    else (None, show (st_warning "No data to export") w) in
  match uploaded_file with
  | None => (download, w0)
  | Some text =>
      match json_loads text with
      | JSONDecodeError e =>
          (download, show (st_error ("❌ Invalid file format: " +:+ e)) w0)
      | Parsed (JArr data) =>
          let '(valid_books, error_count) := import_entries data [] 0 in
          let w1 := save_library (set_library (JArr valid_books) w0) in
          let w2 :=
            show (st_success ("✅ Imported " +:+ str_of_nat (length valid_books)
                              +:+ " valid books")) w1 in
          (download,
           if (0 <? error_count)%nat
           then show (st_warning ("Skipped " +:+ str_of_nat error_count
                                  +:+ " invalid entries")) w2
           else w2)
      | Parsed _ =>
          (download,
           show (st_error "❌ Invalid file format: Root element must be an array") w0)
      end
  end.

(** [file_handling] as the script runs it, lines 349-381. *)
Definition file_handling (uploaded_file : option doc) (w : world doc)
    : doc * world doc :=
  let library_json := json_dumps (Some 2) (library w) in
  match uploaded_file with
  | None => (library_json, w)
  | Some text =>
      match json_loads text with
      | Parsed new_library =>
          (library_json,
           show (st_success "✅ Library imported successfully!")
             (save_library (set_library new_library w)))
      | JSONDecodeError e =>
          (library_json, show (st_error ("Error: " +:+ e)) w)
      end
  end.

(** The widgets of the form of [add_book], as the user left them. *)
Record add_book_form : Type := AddBookForm {
  title : string;
  year : Z;                  (* [st.number_input] with integer bounds *)
  author : string;
  genre : string;
  read_status : string;      (* "Read" or "Unread" *)
  submitted : bool           (* [st.form_submit_button] *)
}.

(** [add_book], lines 188-224. *)
Definition add_book (form : add_book_form) (w : world doc) : outcome (world doc) :=
  if submitted form then
    if negb (truthy (JStr (title form))) || negb (truthy (JStr (author form))) then
      Done (show (st_error "Title and Author are required fields") w)
    else
      let new_book := JObj (list_to_map [
        ("title", JStr (title form));
        ("author", JStr (author form));
        ("year", JInt (year form));
        ("genre", JStr (genre form));
        ("read", JBool (read_status form =? "Read"))
      ]) in
      library' ← append (library w) new_book;
      let w1 := save_library (set_library library' w) in
      Done (show st_balloons (show (st_success "📚 Book added successfully!") w1))
  else Done w.

(** Line 263: the key looked up for a choice of the "Search by" box. *)
Definition search_key (search_type : string) : string :=
  if bool_decide (search_type ≠ "Genre") then lower search_type else "genre".

(** The loop of lines 262-265. *)
Fixpoint search_entries (search_type search_term : string) (books results : list json)
    : outcome (list json) :=
  match books with
  | [] => Done results
  | book :: rest =>
      target ← getitem book (search_key search_type);
      if py_in (str_lower search_term) (str_lower (str target)) then
        search_entries search_type search_term rest (results ++ [book])
      else
        search_entries search_type search_term rest results
  end.

(** The loop of lines 270-283: one card per result.  The HTML of a card is
    not modelled, the lookups it makes are. *)
Fixpoint show_results (results : list json) (w : world doc) : outcome (world doc) :=
  match results with
  | [] => Done w
  | book :: rest =>
      read ← getitem book "read";
      let status := if truthy read then "📗 Read" else "📘 Unread" in
      _ ← getitem book "title";
      _ ← getitem book "author";
      _ ← getitem book "year";
      _ ← getitem book "genre";
      show_results rest (show (book_card book status) w)
  end.

(** [search_books], lines 255-285.  The first component is [results];
    [None] when the search term is empty and nothing is searched. *)
Definition search_books (search_type search_term : string) (w : world doc)
    : outcome (option (list json) * world doc) :=
  if truthy (JStr search_term) then
    books ← iterate (library w);
    results ← search_entries search_type search_term books [];
    if truthy (JArr results) then
      w1 ← show_results results
             (show (st_success ("📖 Found " +:+ str_of_nat (length results)
                                +:+ " results:")) w);
      Done (Some results, w1)
    else
      Done (Some results, show (st_warning "No matching books found") w)
  else Done (None, w).

End Script.

(** ** The vocabulary of the specification *)

(** A dict-shaped entry containing all five required keys. *)
Definition is_book (v : json) : Prop :=
  match v with
  | JObj fields => Forall (λ key, is_Some (fields !! key)) required_keys
  | _ => False
  end.

#[global] Instance is_book_dec (v : json) : Decision (is_book v).
Proof. destruct v; simpl; apply _. Defined.

(** The 'read' field of an entry is a [str]. *)
Definition read_is_str (v : json) : Prop :=
  match v with
  | JObj fields => match fields !! "read" with Some (JStr _) => True | _ => False end
  | _ => False
  end.

(** Two strings are equal up to the case of their letters. *)
Definition same_ignoring_case (s t : string) : Prop := lower s = lower t.

#[global] Instance same_ignoring_case_dec s t : Decision (same_ignoring_case s t).
Proof. unfold same_ignoring_case. apply _. Defined.

(** A string-typed 'read' becomes the boolean "it reads true, whatever the
    case of its letters"; any other entry is left as it is. *)
Definition read_as_boolean (v : json) : json :=
  match v with
  | JObj fields =>
      match fields !! "read" with
      | Some (JStr s) =>
          JObj (<["read" := JBool (bool_decide (same_ignoring_case s "true"))]> fields)
      | _ => v
      end
  | _ => v
  end.

(** The positions, in order and counted from [idx], of the entries of an array
    that are not books. *)
Definition removed_from (idx : nat) (raw_data : list json) : list nat :=
  (filter (λ p, ¬ is_book p.2) (imap (λ i, pair (idx + i)) raw_data)).*1.

Definition removed_positions (raw_data : list json) : list nat :=
  removed_from 0 raw_data.

Definition removal_warning (idx : nat) : ui_event :=
  st_warning ("Removed invalid entry at position " +:+ str_of_nat idx).

(** [needle] occurs in [hay] as a contiguous run of characters. *)
Definition substring (needle hay : string) : Prop :=
  ∃ before after, hay = before +:+ needle +:+ after.

(** The data-model invariant of a book: title and author are non-empty
    strings and the year is an integer of [1, now_year]. *)
Definition book_invariant (now_year : Z) (v : json) : Prop :=
  match v with
  | JObj fields =>
      match fields !! "title", fields !! "author", fields !! "year" with
      | Some (JStr t), Some (JStr a), Some (JInt y) =>
          t ≠ "" ∧ a ≠ "" ∧ (1 ≤ y ≤ now_year)%Z
      | _, _, _ => False
      end
  | _ => False
  end.

Definition collection_invariant (now_year : Z) (v : json) : Prop :=
  match v with
  | JArr books => Forall (book_invariant now_year) books
  | _ => False
  end.

(** [json.loads] undoes [json.dump] and [json.dumps], whatever the indent. *)
Definition lossless {doc} `{Builtins doc} : Prop :=
  ∀ indent v, json_loads (json_dumps indent v) = Parsed v.

(** A file modelled by what it parses to: its value, or the decoder's
    complaint.  Used to run the script on concrete files. *)
Definition parsed_files : Builtins parsed :=
  {| json_dumps := λ _ v, Parsed v;
     json_loads := λ text, text;
     load_raises := λ _, None;
     str_other := λ _, "";
     lower_non_ascii := λ s, s |}.

(** A file on disk: one that [json.load] reads, to a value or to a
    [json.JSONDecodeError], or one on which [open] or [json.load] raises
    another exception [e], with its message. *)
Inductive file_on_disk : Type :=
| decodes (content : parsed)
| fails (e : exn) (message : string).

Definition files_on_disk : Builtins file_on_disk :=
  {| json_dumps := λ _ v, decodes (Parsed v);
     json_loads := λ file,
       match file with
       | decodes content => content
       | fails _ message => JSONDecodeError message
       end;
     load_raises := λ file,
       match file with
       | decodes _ => None
       | fails e _ => Some e
       end;
     str_other := λ _, "";
     lower_non_ascii := λ s, s |}.

(** [str.lower] as Python computes it on ASCII text and on the two Greek
    strings 'ΑΣ' and 'Σ': ['ΑΣ'.lower()] is 'ας', the capital sigma that
    ends a word becoming a final sigma, and ['Σ'.lower()] is 'σ'. *)
Definition final_sigma : Builtins parsed :=
  {| json_dumps := λ _ v, Parsed v;
     json_loads := λ text, text;
     load_raises := λ _, None;
     str_other := λ _, "";
     lower_non_ascii := λ s,
       if (s =? "ΑΣ")%string then "ας"
       else if (s =? "Σ")%string then "σ"
       else s |}.

Definition book (t a : string) (y : Z) (g : string) (r : json) : json :=
  JObj (list_to_map [("title", JStr t); ("author", JStr a); ("year", JInt y);
                     ("genre", JStr g); ("read", r)]).

(** What the repair step of the first [file_handling] makes of an entry:
    a dict is kept with its 'read' fixed, anything else is skipped. *)
Definition repaired (entry : json) : option json :=
  match entry with
  | JObj fields =>
      let read :=
        match fields !! "read" with
        | None => JBool false
        | Some (JStr s) => JBool (bool_decide (lower s ∈ ["true"; "1"; "yes"]))
        | Some value => value
        end in
      Some (JObj (<["read" := read]> fields))
  | _ => None
  end.

(** An upload with an entry that lacks 'read', an entry that is not a dict
    and an entry whose 'read' is the string 'yes'. *)
Definition legacy_upload : json :=
  JArr [JObj (list_to_map [("title", JStr "Emma"); ("author", JStr "Jane Austen");
                           ("year", JInt 1815); ("genre", JStr "Fiction")]);
        JInt 5;
        book "Dune" "Frank Herbert" 1965 "Fiction" (JStr "yes")].

(** A file whose only entry has the five keys, an empty title, an empty
    author and the year 0. *)
Definition untitled_file : parsed :=
  Parsed (JArr [book "" "" 0 "Other" (JBool false)]).

(** A file of two well-formed books, the second with a legacy 'read', and
    a session that has just started on it. *)
Definition shelf : list json :=
  [book "Emma" "Jane Austen" 1815 "Fiction" (JBool true);
   book "Cosmos" "Carl Sagan" 1980 "Science" (JStr "yes")].

Definition fresh_session (file : option parsed) : world parsed :=
  World (JArr []) file [].

(** ** Strings: lemmas *)

Lemma startswith_spec s p :
  startswith s p = true ↔ ∃ after, s = p +:+ after.
Proof.
  revert s. induction p as [|a p IH]; intros s; simpl.
  - split; [intros _; by exists s | done].
  - destruct s as [|b s].
    + split; [done | intros [after Heq]; discriminate].
    + rewrite andb_true_iff, IH. split.
      * intros [Hab [after ->]]. apply Ascii.eqb_eq in Hab as ->. by exists after.
      * intros [after Heq]. injection Heq as -> ->. split; [apply Ascii.eqb_refl | by exists after].
Qed.

Lemma py_in_spec needle hay :
  py_in needle hay = true ↔ substring needle hay.
Proof.
  unfold substring. induction hay as [|c hay IH]; simpl.
  - rewrite orb_false_r, startswith_spec. split.
    + intros [after Heq]. by exists "", after.
    + intros (before & after & Heq). destruct before; [by exists after | discriminate].
  - rewrite orb_true_iff, startswith_spec, IH. split.
    + intros [[after Heq] | (before & after & ->)].
      * by exists "", after.
      * by exists (String c before), after.
    + intros (before & after & Heq). destruct before as [|b before]; simpl in Heq.
      * left. by exists after.
      * right. injection Heq as -> ->. by exists before, after.
Qed.

#[global] Instance substring_dec needle hay : Decision (substring needle hay).
Proof.
  refine (cast_if (decide (py_in needle hay = true))); by rewrite <- py_in_spec.
Defined.

(** The lowercased [term] occurs in the lowercased value a book has under
    [key]. *)
Definition contains_ignoring_case {doc} `{Builtins doc} (key term : string)
    (entry : json) : Prop :=
  match entry with
  | JObj fields =>
      match fields !! key with
      | Some value => substring (str_lower term) (str_lower (str value))
      | None => False
      end
  | _ => False
  end.

#[global] Instance contains_ignoring_case_dec {doc} `{Builtins doc} key term entry :
  Decision (contains_ignoring_case key term entry).
Proof. destruct entry; simpl; try apply _. destruct (_ !! _); apply _. Defined.

(** In the words of the specification: the value a book has under [key]
    contains, as a substring, the term up to the case of its letters. *)
Definition contains_term_up_to_case {doc} `{Builtins doc} (key term : string)
    (entry : json) : Prop :=
  match entry with
  | JObj fields =>
      match fields !! key with
      | Some value =>
          ∃ before found after,
            str value = before +:+ found +:+ after ∧ str_lower found = str_lower term
      | None => False
      end
  | _ => False
  end.

Lemma lower_true_eqb s :
  (lower s =? "true") = bool_decide (same_ignoring_case s "true").
Proof.
  unfold same_ignoring_case. change (lower "true") with "true".
  destruct (String.eqb_spec (lower s) "true") as [Heq | Hne].
  - by rewrite bool_decide_eq_true_2.
  - by rewrite bool_decide_eq_false_2.
Qed.

(** ** Loading *)

Section Loading.
Context {doc : Type} `{Builtins doc}.

Lemma valid_entry_is_book item : valid_entry item = true ↔ is_book item.
Proof.
  destruct item; cbv [valid_entry is_book]; try (split; [discriminate | done]).
  rewrite forallb_forall, Forall_forall. split; intros Hall key Hkey.
  - eapply bool_decide_eq_true_1, Hall. by apply list_elem_of_In.
  - apply bool_decide_eq_true_2, Hall. by apply list_elem_of_In.
Qed.

Lemma convert_legacy_read_eq item : convert_legacy_read item = read_as_boolean item.
Proof.
  destruct item as [| | | | | |fields]; try done. simpl.
  destruct (fields !! "read") as [[]|]; try done.
  by rewrite lower_true_eqb.
Qed.

Lemma removed_from_cons idx item rest :
  removed_from idx (item :: rest) =
    ((if decide (is_book item) then [] else [idx]) ++ removed_from (S idx) rest)%list.
Proof.
  unfold removed_from. rewrite imap_cons, filter_cons. simpl.
  rewrite (imap_ext _ (λ i, pair (S idx + i))).
  2:{ intros i x _. simpl. f_equal. lia. }
  rewrite Nat.add_0_r.
  destruct (decide (is_book item)) as [Hb | Hb].
  - rewrite decide_False; [done | by intros Hn].
  - by rewrite decide_True.
Qed.

(** The loop of [load_library] is a filter followed by a map, and it
    warns once for every entry it drops. *)
Lemma load_entries_eq raw_data : ∀ idx valid_books (w : world doc),
  load_entries idx raw_data valid_books w =
    ((valid_books ++ (read_as_boolean <$> filter is_book raw_data))%list,
     World (library w) (library_json w)
       (ui w ++ (removal_warning <$> removed_from idx raw_data))%list).
Proof.
  induction raw_data as [|item rest IH]; intros idx valid_books w.
  - simpl. rewrite !app_nil_r. by destruct w.
  - simpl. rewrite removed_from_cons, filter_cons.
    destruct (valid_entry item) eqn:Hvalid.
    + apply valid_entry_is_book in Hvalid.
      rewrite !decide_True by done. rewrite IH, convert_legacy_read_eq.
      rewrite fmap_cons, <- app_assoc. done.
    + assert (¬ is_book item) as Hnot.
      { intros Hb. apply valid_entry_is_book in Hb. congruence. }
      rewrite !decide_False by done. rewrite IH. simpl.
      rewrite <- app_assoc. done.
Qed.

Lemma load_library_array (w : world doc) text raw_data :
  library_json w = Some text →
  json_loads text = Parsed (JArr raw_data) →
  load_library w =
    World (JArr (read_as_boolean <$> filter is_book raw_data)) (library_json w)
      (ui w ++ (removal_warning <$> removed_positions raw_data) ++
       [st_toast ("Loaded " +:+ str_of_nat (length (filter is_book raw_data))
                  +:+ " valid books") "✅"])%list.
Proof.
  intros Hfile Hparse. unfold load_library. rewrite Hfile, Hparse.
  rewrite load_entries_eq. simpl. unfold show, set_library. simpl.
  rewrite length_fmap, <- app_assoc, Hfile. done.
Qed.

Lemma read_as_boolean_is_book item : is_book item → is_book (read_as_boolean item).
Proof.
  destruct item as [| | | | | |fields]; try done. simpl.
  destruct (fields !! "read") as [[]|] eqn:Hread; try done.
  simpl. intros Hall. eapply Forall_impl; [exact Hall|].
  intros key Hkey. simpl. rewrite lookup_insert. by case_decide.
Qed.

Lemma read_as_boolean_not_str item : ¬ read_is_str (read_as_boolean item).
Proof.
  destruct item as [| | | | | |fields]; try (by intros []). simpl.
  destruct (fields !! "read") as [[]|] eqn:Hread; simpl;
    rewrite ?Hread, ?lookup_insert_eq; by intros [].
Qed.

(** C2: when the file parses to an array, [load_library] keeps exactly the
    entries that are dicts with the five required keys, in their order,
    each with a string-typed 'read' replaced by the boolean "equals 'true'
    up to case"; every other entry is dropped and a warning naming its
    position is shown, in order, before the final toast. *)
Theorem load_library_keeps_books (w : world doc) text raw_data :
  library_json w = Some text →
  json_loads text = Parsed (JArr raw_data) →
  library (load_library w) = JArr (read_as_boolean <$> filter is_book raw_data) ∧
  ui (load_library w) =
    (ui w ++ (removal_warning <$> removed_positions raw_data) ++
     [st_toast ("Loaded " +:+ str_of_nat (length (filter is_book raw_data))
                +:+ " valid books") "✅"])%list.
Proof.
  intros Hfile Hparse. by rewrite (load_library_array w text raw_data).
Qed.

(** C3: loading a file that holds an array of N dicts, each with the five
    required keys, yields a collection of exactly N entries. *)
Theorem load_library_size (w : world doc) text raw_data :
  library_json w = Some text →
  json_loads text = Parsed (JArr raw_data) →
  Forall is_book raw_data →
  ∃ books, library (load_library w) = JArr books ∧ length books = length raw_data.
Proof.
  intros Hfile Hparse Hall.
  exists (read_as_boolean <$> filter is_book raw_data). split.
  - by rewrite (load_library_array w text raw_data).
  - rewrite length_fmap. f_equal. clear Hfile Hparse.
    induction Hall as [|item rest Hitem _ IH]; [done|].
    rewrite filter_cons, decide_True by done. by rewrite IH.
Qed.

(** The failures that [load_library] catches.  With no file the collection
    is empty and nothing is shown; with a file that [json.load] rejects
    with a [JSONDecodeError] the collection is empty and the corruption
    message is shown; with a file whose root is not an array the collection
    is empty and the format message is shown.  The file is never
    touched. *)
Lemma load_library_caught (w : world doc) :
  (library_json w = None →
     load_library_call w = Done (World (JArr []) None (ui w))) ∧
  (∀ text message,
     library_json w = Some text → load_raises text = None →
     json_loads text = JSONDecodeError message →
     load_library_call w =
       Done (World (JArr []) (Some text)
               (ui w ++ [st_error "⚠️ Corrupted library file: Resetting to empty library"]))) ∧
  (∀ text root,
     library_json w = Some text → load_raises text = None →
     json_loads text = Parsed root →
     isinstance_list root = false →
     load_library_call w =
       Done (World (JArr []) (Some text)
               (ui w ++ [st_error "⚠️ Invalid library format: Resetting to empty library"]))).
Proof.
  unfold load_library_call, load_library, set_library, show. repeat split.
  - by intros ->.
  - intros text message -> -> ->. done.
  - intros text root -> -> -> Hroot. by destruct root.
Qed.

(** Any other exception of [open] or [json.load] leaves [load_library]. *)
Lemma load_library_uncaught (w : world doc) text e :
  library_json w = Some text → load_raises text = Some e →
  load_library_call w = Raised e.
Proof. intros Hfile Hraises. unfold load_library_call. by rewrite Hfile, Hraises. Qed.

Lemma loaded_books_wellformed raw_data :
  Forall (λ entry, is_book entry ∧ ¬ read_is_str entry)
    (read_as_boolean <$> filter is_book raw_data).
Proof.
  apply Forall_fmap, Forall_forall. intros item Hitem.
  apply list_elem_of_filter in Hitem as [Hbook _]. simpl. split.
  - by apply read_as_boolean_is_book.
  - apply read_as_boolean_not_str.
Qed.

(** Whatever the file, [load_library] leaves a list of well-formed
    entries in the session. *)
Lemma load_library_collection (w : world doc) :
  ∃ books, library (load_library w) = JArr books ∧
           Forall (λ entry, is_book entry ∧ ¬ read_is_str entry) books.
Proof.
  destruct (library_json w) as [text|] eqn:Hfile.
  2:{ exists []. unfold load_library. by rewrite Hfile. }
  destruct (json_loads text) as [root|message] eqn:Hparse.
  2:{ exists []. unfold load_library. by rewrite Hfile, Hparse. }
  destruct root as [| | | | |raw_data|];
    try (exists []; unfold load_library; by rewrite Hfile, Hparse).
  exists (read_as_boolean <$> filter is_book raw_data). split.
  - by rewrite (load_library_array w text raw_data).
  - apply loaded_books_wellformed.
Qed.

(** C9: after a load that found the file, parsed it and saw an array, every
    entry of the collection is a dict with the five required keys whose
    'read' field is not a string. *)
Theorem load_library_entries_wellformed (w : world doc) text raw_data :
  library_json w = Some text →
  json_loads text = Parsed (JArr raw_data) →
  ∃ books, library (load_library w) = JArr books ∧
           Forall (λ entry, is_book entry ∧ ¬ read_is_str entry) books.
Proof.
  intros Hfile Hparse.
  exists (read_as_boolean <$> filter is_book raw_data). split.
  - by rewrite (load_library_array w text raw_data).
  - apply loaded_books_wellformed.
Qed.

(** C10: on load, an entry whose 'read' is a string that does not read
    'true' when lowercased ends up in the collection with 'read' set to
    False; this covers '1' and 'yes', which the repair step of the first
    [file_handling] turns into True. *)
Theorem load_library_read_only_true (w : world doc) text raw_data fields s :
  library_json w = Some text →
  json_loads text = Parsed (JArr raw_data) →
  JObj fields ∈ raw_data →
  is_book (JObj fields) →
  fields !! "read" = Some (JStr s) →
  lower s ≠ "true" →
  (∃ books, library (load_library w) = JArr books ∧
            JObj (<["read" := JBool false]> fields) ∈ books) ∧
  (lower s ∈ ["1"; "yes"] → auto_fix fields !! "read" = Some (JBool true)).
Proof.
  intros Hfile Hparse Hin Hbook Hread Hlower. split.
  - exists (read_as_boolean <$> filter is_book raw_data). split.
    + by rewrite (load_library_array w text raw_data).
    + apply list_elem_of_fmap. exists (JObj fields). split.
      * simpl. rewrite Hread. rewrite bool_decide_eq_false_2; [done|].
        unfold same_ignoring_case. by change (lower "true") with "true".
      * by apply list_elem_of_filter.
  - intros Hyes. unfold auto_fix.
    rewrite bool_decide_eq_true_2 by (by rewrite Hread).
    rewrite Hread, lookup_insert_eq.
    rewrite bool_decide_eq_true_2; [done|]. by apply list_elem_of_further.
Qed.

End Loading.

(** C4: [load_library] does not handle every failure.  On a [library.json]
    whose bytes are not UTF-8, [json.load] raises [UnicodeDecodeError],
    which is neither of the two exceptions of lines 95 and 97: the
    exception leaves [load_library] and the collection is not reset.  The
    import of [file_handling], whose [try] catches every exception, reports
    the same file with an error and goes on. *)
Theorem load_library_lets_errors_through :
  let file := fails UnicodeDecodeError "invalid start byte" in
  let w := World (JArr shelf) (Some file) [] in
  @load_library_call _ files_on_disk w = Raised UnicodeDecodeError ∧
  (@file_handling _ files_on_disk (Some file) w).2 =
    World (JArr shelf) (Some file) [st_error "Error: invalid start byte"].
Proof. split; reflexivity. Qed.

(** ** Searching *)

Section Searching.
Context {doc : Type} `{Builtins doc}.

Lemma is_book_lookup fields key :
  is_book (JObj fields) → key ∈ required_keys → is_Some (fields !! key).
Proof. simpl. rewrite Forall_forall. auto. Qed.

Lemma search_entries_eq search_type search_term key books :
  search_key search_type = key → key ∈ required_keys → Forall is_book books →
  ∀ results,
    search_entries search_type search_term books results =
      Done (results ++ filter (contains_ignoring_case key search_term) books)%list.
Proof.
  intros Hkey Hreq Hall. induction Hall as [|entry rest Hentry _ IH]; intros results.
  - simpl. by rewrite app_nil_r.
  - simpl. rewrite Hkey. destruct entry as [| | | | | |fields]; try done.
    destruct (is_book_lookup fields key Hentry Hreq) as [value Hvalue].
    simpl. rewrite Hvalue. simpl. rewrite filter_cons. simpl. rewrite Hvalue.
    destruct (py_in (str_lower search_term) (str_lower (str value))) eqn:Hin.
    + rewrite decide_True by (by apply py_in_spec).
      rewrite IH, <- app_assoc. done.
    + rewrite decide_False; [apply IH|].
      intros Hsub. apply py_in_spec in Hsub. congruence.
Qed.

Lemma show_results_books results : Forall is_book results →
  ∀ w : world doc, ∃ w',
    show_results results w = Done w' ∧
    library w' = library w ∧ library_json w' = library_json w.
Proof.
  induction 1 as [|entry rest Hentry _ IH]; intros w.
  - by exists w.
  - destruct entry as [| | | | | |fields]; try done.
    destruct (is_book_lookup fields "read" Hentry) as [r Hr]; [compute_done|].
    destruct (is_book_lookup fields "title" Hentry) as [t Ht]; [compute_done|].
    destruct (is_book_lookup fields "author" Hentry) as [a Ha]; [compute_done|].
    destruct (is_book_lookup fields "year" Hentry) as [y Hy]; [compute_done|].
    destruct (is_book_lookup fields "genre" Hentry) as [g Hg]; [compute_done|].
    simpl. rewrite Hr, Ht, Ha, Hy, Hg. simpl.
    destruct (IH (show (book_card (JObj fields)
                    (if truthy r then "📗 Read" else "📘 Unread")) w))
      as (w' & Hshow & Hlib & Hfile).
    exists w'. by rewrite Hshow.
Qed.

Lemma search_key_choice search_type key :
  (search_type, key) ∈ [("Title", "title"); ("Author", "author"); ("Genre", "genre")] →
  search_key search_type = key ∧ key ∈ required_keys.
Proof.
  intros Hchoice.
  repeat (apply elem_of_cons in Hchoice as [[= -> ->] | Hchoice];
            [split; [reflexivity | compute_done] |]).
  by apply elem_of_nil in Hchoice.
Qed.

Lemma search_books_eq (w : world doc) books search_type key search_term :
  library w = JArr books →
  Forall is_book books →
  search_key search_type = key →
  key ∈ required_keys →
  search_term ≠ "" →
  ∃ w', search_books search_type search_term w =
          Done (Some (filter (contains_ignoring_case key search_term) books), w') ∧
        library w' = library w ∧ library_json w' = library_json w.
Proof.
  intros Hlib Hbooks Hkey Hreq Hterm.
  unfold search_books. simpl.
  destruct (String.eqb_spec search_term "") as [|_]; [done|]. simpl.
  rewrite Hlib. simpl.
  rewrite (search_entries_eq search_type search_term key books Hkey Hreq Hbooks).
  simpl.
  set (results := filter (contains_ignoring_case key search_term) books).
  assert (Forall is_book results) as Hresults.
  { apply Forall_forall. intros entry Hentry.
    apply list_elem_of_filter in Hentry as [_ Hentry].
    rewrite Forall_forall in Hbooks. auto. }
  destruct results as [|entry rest] eqn:Hres.
  - eexists. split; [reflexivity | done].
  - destruct (show_results_books _ Hresults
      (show (st_success ("📖 Found " +:+ str_of_nat (length (entry :: rest))
                         +:+ " results:")) w)) as (w' & Hshow & Hl & Hf).
    exists w'. split; [|by rewrite Hl, Hf].
    change (truthy (JArr (entry :: rest))) with true. cbv iota.
    by rewrite Hshow.
Qed.

(** A run of the script loads the library before it shows a page, so the
    search page always works on a collection of books and never raises. *)
Lemma search_books_after_load (w : world doc) search_type key search_term :
  (search_type, key) ∈ [("Title", "title"); ("Author", "author"); ("Genre", "genre")] →
  search_term ≠ "" →
  ∃ books w',
    library (load_library w) = JArr books ∧
    search_books search_type search_term (load_library w) =
      Done (Some (filter (contains_ignoring_case key search_term) books), w').
Proof.
  intros Hchoice Hterm.
  destruct (search_key_choice _ _ Hchoice) as [Hkey Hreq].
  destruct (load_library_collection w) as (books & Hlib & Hbooks).
  destruct (search_books_eq (load_library w) books search_type key search_term)
    as (w' & Hsearch & _); try done.
  - eapply Forall_impl; [exact Hbooks|]. by intros entry [Hbook _].
  - by exists books, w'.
Qed.

(** C6, amended: on a collection of books and a non-empty search term,
    searching by title, author or genre computes exactly the books, in
    collection order, for which what [str.lower] makes of the term occurs
    in what it makes of the value under that key; neither the collection
    nor the file changes. *)
Theorem search_books_finds (w : world doc) books search_type key search_term :
  library w = JArr books →
  Forall is_book books →
  (search_type, key) ∈ [("Title", "title"); ("Author", "author"); ("Genre", "genre")] →
  search_term ≠ "" →
  ∃ w', search_books search_type search_term w =
          Done (Some (filter (contains_ignoring_case key search_term) books), w') ∧
        library w' = library w ∧ library_json w' = library_json w.
Proof.
  intros Hlib Hbooks Hchoice Hterm.
  destruct (search_key_choice _ _ Hchoice) as [Hkey Hreq].
  destruct (search_books_eq w books search_type key search_term)
    as (w' & Hsearch & Hsame); try done.
  by exists w'.
Qed.

End Searching.

(** C6, as stated, fails: the title 'ΑΣ' contains the term 'Σ', case and
    all, and a search by title for 'Σ' finds nothing, because lowercasing
    the title turns its last letter into a final sigma. *)
Lemma search_misses_capital_sigma :
  let entry := book "ΑΣ" "Anonymous" 1900 "Other" (JBool false) in
  let w := World (JArr [entry]) None [] in
  @contains_term_up_to_case _ final_sigma "title" "Σ" entry ∧
  @search_books _ final_sigma "Title" "Σ" w =
    Done (Some [], World (JArr [entry]) None [st_warning "No matching books found"]).
Proof.
  split.
  - exists "Α", "Σ", "". split; reflexivity.
  - vm_compute. reflexivity.
Qed.

(** ** Adding *)

Section Adding.
Context {doc : Type} `{Builtins doc}.

Lemma truthy_str s : truthy (JStr s) = true ↔ s ≠ "".
Proof.
  simpl. destruct (String.eqb_spec s "") as [-> | Hne]; simpl; split; done.
Qed.

Lemma add_book_accepted form (w : world doc) books :
  submitted form = true → title form ≠ "" → author form ≠ "" →
  library w = JArr books →
  add_book form w =
    Done (World
      (JArr (books ++ [book (title form) (author form) (year form) (genre form)
                         (JBool (read_status form =? "Read"))]))
      (Some (json_dumps None
         (JArr (books ++ [book (title form) (author form) (year form) (genre form)
                            (JBool (read_status form =? "Read"))]))))
      (ui w ++ [st_success "📚 Book added successfully!"; st_balloons])).
Proof.
  intros Hsub Ht Ha Hlib. unfold add_book. rewrite Hsub.
  apply truthy_str in Ht, Ha. rewrite Ht, Ha, Hlib. simpl.
  unfold show, save_library, set_library, book. simpl.
  by rewrite <- app_assoc.
Qed.

Lemma book_invariant_new now_year t a y g r :
  t ≠ "" → a ≠ "" → (1 ≤ y ≤ now_year)%Z →
  book_invariant now_year (book t a y g r).
Proof.
  intros Ht Ha Hy. unfold book_invariant, book.
  replace (_ !! "title") with (Some (JStr t)) by (vm_compute; reflexivity).
  replace (_ !! "author") with (Some (JStr a)) by (vm_compute; reflexivity).
  replace (_ !! "year") with (Some (JInt y)) by (vm_compute; reflexivity).
  done.
Qed.

Lemma add_book_empty_field form (w : world doc) :
  submitted form = true →
  title form = "" ∨ author form = "" →
  add_book form w = Done (show (st_error "Title and Author are required fields") w).
Proof.
  intros Hsub Hempty. unfold add_book. rewrite Hsub.
  destruct Hempty as [-> | ->]; simpl; [done|].
  by rewrite orb_true_r.
Qed.

(** C5: whatever the collection, submitting the form with an empty title or
    an empty author shows the validation error and changes neither the
    collection nor the file. *)
Theorem add_book_rejects_empty form (w : world doc) :
  submitted form = true →
  title form = "" ∨ author form = "" →
  add_book form w =
    Done (World (library w) (library_json w)
            (ui w ++ [st_error "Title and Author are required fields"])).
Proof.
  intros Hsub Hempty. unfold add_book. rewrite Hsub.
  destruct Hempty as [-> | ->]; simpl; [done|].
  by rewrite orb_true_r.
Qed.

End Adding.

(** ** Import and export *)

Section Exchange.
Context {doc : Type} `{Builtins doc}.

Lemma auto_fix_repaired fields : Some (JObj (auto_fix fields)) = repaired (JObj fields).
Proof.
  unfold auto_fix, repaired. destruct (fields !! "read") as [value|] eqn:Hread.
  - rewrite bool_decide_eq_true_2 by done. rewrite Hread.
    destruct value; try done; by rewrite insert_id.
  - rewrite bool_decide_eq_false_2 by (by intros [? ?]).
    by rewrite lookup_insert_eq.
Qed.

(** The loop of the first [file_handling] keeps the repaired dicts in
    order and counts the other entries. *)
Lemma import_entries_eq data : ∀ valid_books error_count,
  import_entries data valid_books error_count =
    ((valid_books ++ omap repaired data)%list,
     error_count + length (filter (λ entry, isinstance_dict entry = false) data)).
Proof.
  induction data as [|entry rest IH]; intros valid_books error_count.
  - simpl. by rewrite app_nil_r, Nat.add_0_r.
  - assert (omap repaired (entry :: rest) =
            match repaired entry with
            | Some fixed => fixed :: omap repaired rest
            | None => omap repaired rest
            end) as -> by done.
    rewrite filter_cons.
    destruct entry as [| | | | | |fields];
      try (cbn [import_entries repaired isinstance_dict]; rewrite IH;
           rewrite decide_True by done; cbn [length]; f_equal; lia).
    rewrite <- auto_fix_repaired. cbn [import_entries isinstance_dict].
    rewrite IH, decide_False by done. by rewrite <- app_assoc.
Qed.

Lemma file_handling_import (w : world doc) text new_library :
  json_loads text = Parsed new_library →
  (file_handling (Some text) w).2 =
    World new_library (Some (json_dumps None new_library))
      (ui w ++ [st_success "✅ Library imported successfully!"]).
Proof. intros Hparse. unfold file_handling. by rewrite Hparse. Qed.

Lemma read_as_boolean_id entry : ¬ read_is_str entry → read_as_boolean entry = entry.
Proof.
  destruct entry as [| | | | | |fields]; try done. simpl.
  by destruct (fields !! "read") as [[]|].
Qed.

Lemma load_keeps_valid_books books :
  Forall (λ entry, is_book entry ∧ ¬ read_is_str entry) books →
  read_as_boolean <$> filter is_book books = books.
Proof.
  induction 1 as [|entry rest [Hbook Hread] _ IH]; [done|].
  rewrite filter_cons, decide_True by done.
  by rewrite fmap_cons, IH, read_as_boolean_id.
Qed.

(** C7: when [json.load] reads back what [json.dump] and [json.dumps]
    write, importing the export of a collection of valid books leaves
    exactly that collection, and it is still exactly that collection
    after the next run has reloaded the file the import saved. *)
Theorem export_import_roundtrip (w w' : world doc) books :
  lossless →
  library w = JArr books →
  Forall (λ entry, is_book entry ∧ ¬ read_is_str entry) books →
  library (file_handling (Some (file_handling None w).1) w').2 = JArr books ∧
  library (load_library (file_handling (Some (file_handling None w).1) w').2)
    = JArr books.
Proof.
  intros Hcodec Hlib Hbooks.
  assert ((file_handling None w).1 = json_dumps (Some 2) (JArr books)) as ->.
  { unfold file_handling. simpl. by rewrite Hlib. }
  rewrite (file_handling_import w' _ (JArr books)) by apply Hcodec.
  split; [done|].
  rewrite (load_library_array _ (json_dumps None (JArr books)) books);
    [|done|apply Hcodec].
  simpl. by rewrite load_keeps_valid_books.
Qed.

End Exchange.

(** ** The first and the second [file_handling] *)

Section Shadowing.
Context {doc : Type} `{Builtins doc}.

(** The first definition of [file_handling] does repair an upload: it
    keeps the dicts, in order, with a missing 'read' set to False and a
    string 'read' replaced by "is 'true', '1' or 'yes' up to case", and
    saves the result. *)
Lemma file_handling_shadowed_import (w : world doc) text data :
  json_loads text = Parsed (JArr data) →
  library (file_handling_shadowed (Some text) w).2 = JArr (omap repaired data) ∧
  library_json (file_handling_shadowed (Some text) w).2 =
    Some (json_dumps None (JArr (omap repaired data))).
Proof.
  intros Hparse. unfold file_handling_shadowed.
  destruct (truthy (library w)); rewrite Hparse, import_entries_eq; simpl;
    by destruct (0 <? _)%nat.
Qed.

End Shadowing.

(** C1: the import the script runs is the second [file_handling].  On an
    upload with an entry lacking 'read', a number and an entry whose 'read'
    is 'yes', it stores the array untouched and reports no skipped entry;
    the first definition, which the second one replaces, would have kept two
    repaired entries and reported one skipped. *)
Theorem file_handling_import_unrepaired :
  let w := fresh_session None in
  let upload := Some (Parsed legacy_upload) in
  library (@file_handling _ parsed_files upload w).2 = legacy_upload ∧
  ui (@file_handling _ parsed_files upload w).2 =
    [st_success "✅ Library imported successfully!"] ∧
  library (@file_handling_shadowed _ parsed_files upload w).2 =
    JArr [book "Emma" "Jane Austen" 1815 "Fiction" (JBool false);
          book "Dune" "Frank Herbert" 1965 "Fiction" (JBool true)] ∧
  ui (@file_handling_shadowed _ parsed_files upload w).2 =
    [st_warning "No data to export";
     st_success "✅ Imported 2 valid books";
     st_warning "Skipped 1 invalid entries"].
Proof. vm_compute. done. Qed.

(** ** The invariant of the data model *)

Section Invariant.
Context {doc : Type} `{Builtins doc}.
Variable now_year : Z.

Lemma read_as_boolean_invariant entry :
  book_invariant now_year entry → book_invariant now_year (read_as_boolean entry).
Proof.
  destruct entry as [| | | | | |fields]; try done. simpl.
  destruct (fields !! "read") as [[]|]; try done.
  simpl. by rewrite !lookup_insert_ne.
Qed.

(** C8, amended: [add_book] keeps the invariant when the year of the form
    lies in the range of its widget; [load_library] and the import of
    [file_handling] keep it when the entries they take from the file
    satisfy it, which neither of them checks. *)
Theorem invariant_kept_on_valid_input (w : world doc) :
  collection_invariant now_year (library w) →
  (∀ form, (1 ≤ year form ≤ now_year)%Z →
     ∃ w', add_book form w = Done w' ∧ collection_invariant now_year (library w')) ∧
  ((∀ text raw_data,
      library_json w = Some text → json_loads text = Parsed (JArr raw_data) →
      Forall (λ entry, is_book entry → book_invariant now_year entry) raw_data) →
   collection_invariant now_year (library (load_library w))) ∧
  (∀ uploaded_file,
     (∀ text new_library,
        uploaded_file = Some text → json_loads text = Parsed new_library →
        collection_invariant now_year new_library) →
     collection_invariant now_year (library (file_handling uploaded_file w).2)).
Proof.
  intros Hinv. repeat split.
  - intros form Hyear.
    destruct (library w) as [| | | | |books|] eqn:Hlib; try done.
    destruct (submitted form) eqn:Hsub.
    2:{ exists w. unfold add_book. by rewrite Hsub, Hlib. }
    destruct (decide (title form = "" ∨ author form = "")) as [Hempty | Hfull].
    + eexists. split; [by apply add_book_empty_field|]. simpl. by rewrite Hlib.
    + assert (title form ≠ "" ∧ author form ≠ "") as [Ht Ha] by tauto.
      eexists. split; [by apply add_book_accepted|]. simpl.
      apply Forall_app. split; [done|]. apply Forall_singleton.
      by apply book_invariant_new.
  - intros Hfile. unfold load_library.
    destruct (library_json w) as [text|] eqn:Htext; [|by apply Forall_nil].
    destruct (json_loads text) as [root|] eqn:Hparse; [|by apply Forall_nil].
    destruct root as [| | | | |raw_data|]; try by apply Forall_nil.
    rewrite load_entries_eq. simpl.
    apply Forall_fmap, Forall_forall. intros entry Hentry. simpl.
    apply list_elem_of_filter in Hentry as [Hbook Hin].
    apply read_as_boolean_invariant.
    specialize (Hfile text raw_data eq_refl Hparse).
    rewrite Forall_forall in Hfile. auto.
  - intros uploaded_file Hupload. unfold file_handling.
    destruct uploaded_file as [text|]; [|done].
    destruct (json_loads text) as [new_library|] eqn:Hparse; [|done].
    simpl. by eapply Hupload.
Qed.

End Invariant.

(** C8, as stated, fails: a file may hold a dict with the five keys, an empty
    title, an empty author and the year 0, and [load_library] takes it into a
    collection that satisfied the invariant. *)
Lemma load_library_breaks_invariant :
  let w := fresh_session (Some untitled_file) in
  collection_invariant 2026 (library w) ∧
  ¬ collection_invariant 2026 (library (@load_library _ parsed_files w)).
Proof.
  split; [by apply Forall_nil|].
  intros Hinv.
  assert (library (@load_library _ parsed_files (fresh_session (Some untitled_file)))
          = JArr [book "" "" 0 "Other" (JBool false)]) as Hload
    by (vm_compute; reflexivity).
  rewrite Hload in Hinv. simpl in Hinv.
  apply Forall_cons in Hinv as [Hbook _].
  vm_compute in Hbook. by destruct Hbook as [Htitle _].
Qed.

(** ** The theorems at work on concrete files *)

Lemma parsed_files_lossless : @lossless _ parsed_files.
Proof. intros indent v. reflexivity. Qed.

Lemma shelf_books : Forall is_book shelf.
Proof. repeat constructor; compute_done. Qed.

Lemma load_library_keeps_books_witness :
  let w := fresh_session (Some (Parsed (JArr (JNull :: shelf)))) in
  library (@load_library _ parsed_files w)
    = JArr (read_as_boolean <$> filter is_book (JNull :: shelf)) ∧
  ui (@load_library _ parsed_files w) =
    (ui w ++ (removal_warning <$> removed_positions (JNull :: shelf)) ++
     [st_toast ("Loaded " +:+ str_of_nat (length (filter is_book (JNull :: shelf)))
                +:+ " valid books") "✅"])%list.
Proof.
  apply (@load_library_keeps_books _ parsed_files _ (Parsed (JArr (JNull :: shelf))));
    reflexivity.
Defined.

Lemma load_library_size_witness :
  ∃ books,
    library (@load_library _ parsed_files (fresh_session (Some (Parsed (JArr shelf)))))
      = JArr books ∧
    length books = length shelf.
Proof.
  apply (@load_library_size _ parsed_files _ (Parsed (JArr shelf)));
    [reflexivity | reflexivity | apply shelf_books].
Defined.

Lemma add_book_rejects_empty_witness :
  @add_book _ parsed_files (AddBookForm "" 1999 "Ann Author" "Other" "Unread" true)
    (World (JArr shelf) None [])
  = Done (World (JArr shelf) None [st_error "Title and Author are required fields"]).
Proof.
  apply (@add_book_rejects_empty _ parsed_files
           (AddBookForm "" 1999 "Ann Author" "Other" "Unread" true)
           (World (JArr shelf) None [])); [reflexivity | left; reflexivity].
Defined.

Lemma search_books_finds_witness :
  ∃ w', @search_books _ parsed_files "Genre" "FIC" (World (JArr shelf) None []) =
          Done (Some (filter (@contains_ignoring_case _ parsed_files "genre" "FIC") shelf),
                w') ∧
        library w' = JArr shelf ∧ library_json w' = None.
Proof.
  apply (@search_books_finds _ parsed_files (World (JArr shelf) None []) shelf
           "Genre" "genre" "FIC");
    [reflexivity | apply shelf_books | compute_done | discriminate].
Defined.

Lemma export_import_roundtrip_witness :
  let w := World (JArr [book "Emma" "Jane Austen" 1815 "Fiction" (JBool true)]) None [] in
  let exported := (@file_handling _ parsed_files None w).1 in
  library (@file_handling _ parsed_files (Some exported) (fresh_session None)).2
    = JArr [book "Emma" "Jane Austen" 1815 "Fiction" (JBool true)] ∧
  library (@load_library _ parsed_files
             (@file_handling _ parsed_files (Some exported) (fresh_session None)).2)
    = JArr [book "Emma" "Jane Austen" 1815 "Fiction" (JBool true)].
Proof.
  apply (@export_import_roundtrip _ parsed_files
           (World (JArr [book "Emma" "Jane Austen" 1815 "Fiction" (JBool true)]) None [])
           (fresh_session None));
    [apply parsed_files_lossless | reflexivity |].
  repeat constructor; compute_done.
Defined.

Lemma shelf_invariant : Forall (book_invariant 2026) shelf.
Proof. repeat constructor; vm_compute; try discriminate; congruence. Qed.

Lemma invariant_kept_on_valid_input_witness :
  let w := World (JArr shelf) (Some (Parsed (JArr shelf))) [] in
  (∃ w', @add_book _ parsed_files
           (AddBookForm "Dune" 1965 "Frank Herbert" "Fiction" "Read" true) w = Done w' ∧
         collection_invariant 2026 (library w')) ∧
  collection_invariant 2026 (library (@load_library _ parsed_files w)) ∧
  collection_invariant 2026
    (library (@file_handling _ parsed_files (Some (Parsed (JArr shelf))) w).2).
Proof.
  destruct (@invariant_kept_on_valid_input _ parsed_files 2026
              (World (JArr shelf) (Some (Parsed (JArr shelf))) []) shelf_invariant)
    as (Hadd & Hload & Himport).
  split; [|split].
  - apply Hadd. simpl. lia.
  - apply Hload. intros text raw_data [= <-] [= <-].
    eapply Forall_impl; [apply shelf_invariant | auto].
  - apply (Himport (Some (Parsed (JArr shelf)))).
    intros text new_library [= <-] [= <-]. apply shelf_invariant.
Defined.

Lemma load_library_entries_wellformed_witness :
  ∃ books,
    library (@load_library _ parsed_files (fresh_session (Some (Parsed (JArr shelf)))))
      = JArr books ∧
    Forall (λ entry, is_book entry ∧ ¬ read_is_str entry) books.
Proof.
  apply (@load_library_entries_wellformed _ parsed_files _ (Parsed (JArr shelf)) shelf);
    reflexivity.
Defined.

Lemma load_library_read_only_true_witness :
  let fields : gmap string json :=
    list_to_map [("title", JStr "Cosmos"); ("author", JStr "Carl Sagan");
                 ("year", JInt 1980); ("genre", JStr "Science"); ("read", JStr "yes")] in
  (∃ books,
     library (@load_library _ parsed_files (fresh_session (Some (Parsed (JArr shelf)))))
       = JArr books ∧
     JObj (<["read" := JBool false]> fields) ∈ books) ∧
  auto_fix fields !! "read" = Some (JBool true).
Proof.
  intros fields.
  destruct (@load_library_read_only_true _ parsed_files
              (fresh_session (Some (Parsed (JArr shelf)))) (Parsed (JArr shelf)) shelf
              fields "yes") as [Hload Hfix].
  - reflexivity.
  - reflexivity.
  - apply list_elem_of_further, list_elem_of_here.
  - compute_done.
  - vm_compute. reflexivity.
  - vm_compute. discriminate.
  - split; [exact Hload | apply Hfix; compute_done].
Defined.

(** * The rest of the script: overview, statistics, removal and [main] *)

(** What the pages that only display put on the screen, beside the events of
    [ui_event]. *)
Inductive page_event : Type :=
| st_info (text : string)
| st_metric (label : string) (value : nat)
| latest_addition (title author : json)          (* the markdown of lines 411-415 *)
| overview_card (column : nat) (book : json) (status : string)
| fallback_card (column : nat) (title author year genre : json) (status : string).

(** The calls into pandas and plotly.  [DataFrame_display v] is the number
    of rows of [pd.DataFrame(v)[['title', 'author', 'year']]], or the
    exception that building it raises; [statistics_charts v] is lines
    294-323, which only display. *)
Class Pandas : Type := {
  DataFrame_display : json → outcome nat;
  statistics_charts : json → outcome unit
}.

(** [v.get(key, default)]. *)
Definition get (v : json) (key : string) (default : json) : outcome json :=
  match v with
  | JObj fields => Done (match fields !! key with Some x => x | None => default end)
  | _ => Raised AttributeError
  end.

(** The loop of lines 333-347; [idx] is the counter of [enumerate] and a
    card goes to column [idx % 3]. *)
Fixpoint library_cards (idx : nat) (books : list json) (cards : list page_event)
    : outcome (list page_event) :=
  match books with
  | [] => Done cards
  | book :: rest =>
      read ← getitem book "read";
      let status := if truthy read then "📗 Read" else "📘 Unread" in
      _ ← getitem book "title";
      _ ← getitem book "author";
      _ ← getitem book "year";
      _ ← getitem book "genre";
      library_cards (S idx) rest (cards ++ [overview_card (idx mod 3) book status])
  end.

(** [library_view] as the script runs it, lines 325-347. *)
Definition library_view {doc} (w : world doc) : outcome (list page_event) :=
  if negb (truthy (library w)) then
    Done [st_info "Your library is empty. Add some books!"]
  else
    books ← iterate (library w);
    library_cards 0 books [].

(** The loop of the first [library_view], lines 166-186. *)
Fixpoint library_cards_shadowed (idx : nat) (books : list json) (cards : list page_event)
    : outcome (list page_event) :=
  match books with
  | [] => Done cards
  | book :: rest =>
      title ← get book "title" (JStr "Untitled Book");
      author ← get book "author" (JStr "Unknown Author");
      year ← get book "year" (JStr "N/A");
      genre ← get book "genre" (JStr "General");
      read ← get book "read" (JBool false);
      let read_status := if truthy read then "📗 Read" else "📘 Unread" in
      library_cards_shadowed (S idx) rest
        (cards ++ [fallback_card (idx mod 3) title author year genre read_status])
  end.

(** The first definition of [library_view], lines 158-186, which the second
    one replaces. *)
Definition library_view_shadowed {doc} (w : world doc) : outcome (list page_event) :=
  if negb (truthy (library w)) then
    Done [st_info "Your library is empty. Add some books!"]
  else
    books ← iterate (library w);
    library_cards_shadowed 0 books [].

(** Lines 408-417 of [main]: the snapshot of the sidebar.  On a dict,
    [library[-1]] raises [KeyError(-1)], written [KeyError "-1"]; on a
    non-empty string it is a character, which has no ['title']; the other
    values that are true have no [len]. *)
Definition library_snapshot {doc} (w : world doc) : outcome (list page_event) :=
  match library w with
  | JArr items =>
      match last items with
      | None => Done [st_info "No books in library"]
      | Some latest =>
          title ← getitem latest "title";
          author ← getitem latest "author";
          Done [st_metric "Total Books" (length items); latest_addition title author]
      end
  | JObj fields =>
      if truthy (JObj fields) then Raised (KeyError "-1")
      else Done [st_info "No books in library"]
  | other =>
      if truthy other then Raised TypeError
      else Done [st_info "No books in library"]
  end.

Section Pages.
Context {doc : Type} `{Builtins doc} `{Pandas}.

(** [display_statistics], lines 287-323. *)
Definition display_statistics (w : world doc) : outcome (world doc) :=
  if negb (truthy (library w)) then
    Done (show (st_warning "No statistics available for empty library") w)
  else
    _ ← statistics_charts (library w);
    Done w.

(** [remove_book], lines 226-253.  [edited_index] holds the row labels of
    the table the data editor returns and [confirm] is the button. *)
Definition remove_book (edited_index : list nat) (confirm : bool) (w : world doc)
    : outcome (world doc) :=
  if negb (truthy (library w)) then
    Done (show (st_warning "Library is empty") w)
  else
    rows ← DataFrame_display (library w);
    if confirm then
      if (length edited_index <? rows)%nat then
        let removed_indices := filter (λ i, i ∉ edited_index) (seq 0 rows) in
        books ← iterate (library w);
        let kept := (filter (λ p, p.1 ∉ removed_indices) (imap pair books)).*2 in
        Done (show (st_success "✅ Selected books removed successfully!")
                (save_library (set_library (JArr kept) w)))
      else Done w
    else Done w.

(** The choice of the navigation box, with what the user entered on the
    chosen page. *)
Inductive page : Type :=
| LibraryOverview
| AddNewBook (form : add_book_form)
| SearchBooks (search_type search_term : string)
| Statistics
| ManageData (uploaded_file : option doc).

(** [main], lines 383-417, when [load_library] returns and the form of
    [add_book] is opened once.  [quick_add] is [None] unless the sidebar
    button is pressed, and then holds the widgets of the form it opens.
    The result is the world after the run and what the overview and the
    sidebar displayed. *)
Definition main (selected : page) (quick_add : option add_book_form) (w : world doc)
    : outcome (world doc * list page_event) :=
  let w0 := load_library w in
  '(w1, shown) ←
    match selected with
    | LibraryOverview => cards ← library_view w0; Done (w0, cards)
    | AddNewBook form => w1 ← add_book form w0; Done (w1, [])
    | SearchBooks search_type search_term =>
        '(_, w1) ← search_books search_type search_term w0; Done (w1, [])
    | Statistics => w1 ← display_statistics w0; Done (w1, [])
    | ManageData uploaded_file => Done ((file_handling uploaded_file w0).2, [])
    end;
  w2 ← match quick_add with
       | Some form => add_book form w1
       | None => Done w1
       end;
  snapshot ← library_snapshot w2;
  Done (w2, (shown ++ snapshot)%list).


End Pages.

(** pandas on the collections the script builds: one row per book, and
    charts that never raise.  Used to run the pages on concrete files. *)
Definition one_row_per_book : Pandas :=
  {| DataFrame_display := λ v,
       match v with JArr items => Done (length items) | _ => Raised TypeError end;
     statistics_charts := λ _, Done () |}.

(** ** Saving and loading again *)

Section Persistence.
Context {doc : Type} `{Builtins doc}.

Lemma removed_from_books raw_data : ∀ idx,
  Forall is_book raw_data → removed_from idx raw_data = [].
Proof.
  induction raw_data as [|item rest IH]; intros idx Hall; [done|].
  apply Forall_cons in Hall as [Hitem Hrest].
  rewrite removed_from_cons, decide_True by done. by apply IH.
Qed.

Lemma wellformed_books books :
  Forall (λ entry, is_book entry ∧ ¬ read_is_str entry) books → Forall is_book books.
Proof. intros Hall. eapply Forall_impl; [exact Hall|]. by intros entry [Hbook _]. Qed.

Lemma filter_books books : Forall is_book books → filter is_book books = books.
Proof.
  induction 1 as [|entry rest Hentry _ IH]; [done|].
  rewrite filter_cons, decide_True by done. by rewrite IH.
Qed.

Lemma load_saved_library (w : world doc) books :
  lossless →
  library w = JArr books →
  Forall (λ entry, is_book entry ∧ ¬ read_is_str entry) books →
  load_library (save_library w) =
    World (JArr books) (Some (json_dumps None (JArr books)))
      (ui w ++ [st_toast ("Loaded " +:+ str_of_nat (length books) +:+ " valid books") "✅"]).
Proof.
  intros Hcodec Hlib Hbooks.
  rewrite (load_library_array _ (json_dumps None (JArr books)) books).
  - rewrite load_keeps_valid_books by done.
    unfold removed_positions. rewrite removed_from_books by by apply wellformed_books.
    simpl. rewrite Hlib.
    by rewrite filter_books by by apply wellformed_books.
  - simpl. by rewrite Hlib.
  - apply Hcodec.
Qed.

(** X1: when [json.load] reads back what [json.dump] writes, saving a
    collection of well-formed books and loading it again gives the same
    collection, and the load drops nothing: it shows no warning, only the
    toast with the full count. *)
Theorem save_then_load (w : world doc) books :
  lossless →
  library w = JArr books →
  Forall (λ entry, is_book entry ∧ ¬ read_is_str entry) books →
  library (load_library (save_library w)) = library w ∧
  ui (load_library (save_library w)) =
    (ui w ++ [st_toast ("Loaded " +:+ str_of_nat (length books) +:+ " valid books") "✅"])%list.
Proof.
  intros Hcodec Hlib Hbooks. rewrite (load_saved_library w books) by done.
  by rewrite Hlib.
Qed.

Lemma load_library_file (w : world doc) : library_json (load_library w) = library_json w.
Proof.
  unfold load_library. destruct (library_json w) as [text|] eqn:Hfile; [|done].
  destruct (json_loads text) as [[| | | | |raw_data|]|]; try by rewrite <- Hfile.
  rewrite load_entries_eq. simpl. by rewrite Hfile.
Qed.

Lemma load_library_session (w w' : world doc) :
  library_json w' = library_json w → library (load_library w') = library (load_library w).
Proof.
  intros Hsame. unfold load_library. rewrite Hsame.
  destruct (library_json w) as [text|]; [|done].
  destruct (json_loads text) as [[| | | | |raw_data|]|]; try done.
  by rewrite !load_entries_eq.
Qed.

(** X2: [load_library] never writes [library.json], and the collection it
    leaves is a function of the file alone: what the session held before
    plays no part. *)
Theorem load_library_reads_only_the_file (w w' : world doc) :
  library_json (load_library w) = library_json w ∧
  (library_json w' = library_json w →
   library (load_library w') = library (load_library w)).
Proof. split; [apply load_library_file | apply load_library_session]. Qed.

(** X3: loading normalises once and for all.  When [json.load] reads back
    what [json.dump] writes, saving what was loaded and loading that file
    gives the collection of the first load, whatever the first file held. *)
Theorem load_save_load (w : world doc) :
  lossless →
  library (load_library (save_library (load_library w))) = library (load_library w).
Proof.
  intros Hcodec. destruct (load_library_collection w) as (books & Hlib & Hbooks).
  rewrite (load_saved_library _ books) by done. by rewrite Hlib.
Qed.

Lemma kept_or_removed raw_data : ∀ idx,
  length (filter is_book raw_data) + length (removed_from idx raw_data) = length raw_data.
Proof.
  induction raw_data as [|item rest IH]; intros idx; [done|].
  rewrite removed_from_cons, filter_cons.
  destruct (decide (is_book item)); simpl; rewrite <- (IH (S idx)); lia.
Qed.

(** X4: every entry of a loaded array is accounted for exactly once: the
    number of books kept plus the number of removal warnings shown is the
    length of the array. *)
Theorem load_accounts_for_every_entry (w : world doc) text raw_data :
  library_json w = Some text →
  json_loads text = Parsed (JArr raw_data) →
  ∃ books warnings toast,
    library (load_library w) = JArr books ∧
    ui (load_library w) = (ui w ++ (st_warning <$> warnings) ++ [toast])%list ∧
    length books + length warnings = length raw_data.
Proof.
  intros Hfile Hparse. rewrite (load_library_array w text raw_data) by done.
  exists (read_as_boolean <$> filter is_book raw_data),
    ((λ idx, "Removed invalid entry at position " +:+ str_of_nat idx)
       <$> removed_positions raw_data).
  eexists. split; [done|]. split.
  - simpl. by rewrite <- list_fmap_compose.
  - rewrite !length_fmap. apply kept_or_removed.
Qed.

(** X5: loading changes nothing but 'read'.  The books of the collection
    are, one for one and in order, the five-key dicts of the array, and
    each shows under every key other than 'read' exactly what the file
    held. *)
Theorem load_changes_only_read (w : world doc) text raw_data :
  library_json w = Some text →
  json_loads text = Parsed (JArr raw_data) →
  ∃ books,
    library (load_library w) = JArr books ∧
    Forall2 (λ kept original, ∀ key, key ≠ "read" → getitem kept key = getitem original key)
      books (filter is_book raw_data).
Proof.
  intros Hfile Hparse. rewrite (load_library_array w text raw_data) by done.
  eexists. split; [done|].
  apply Forall2_fmap_l, Forall_Forall2_diag, Forall_forall.
  intros entry _ key Hkey. destruct entry as [| | | | | |fields]; try done. simpl.
  destruct (fields !! "read") as [[]|]; try done.
  simpl. by rewrite lookup_insert_ne.
Qed.

End Persistence.

(** ** More on searching and adding *)

(** The status a card shows for an entry. *)
Definition status_of (entry : json) : string :=
  match entry with
  | JObj fields =>
      match fields !! "read" with
      | Some read => if truthy read then "📗 Read" else "📘 Unread"
      | None => ""
      end
  | _ => ""
  end.

Lemma string_app_assoc (a b c : string) : (a +:+ b) +:+ c = a +:+ b +:+ c.
Proof.
  induction a as [|x a IH]; [done|].
  change (String x ((a +:+ b) +:+ c) = String x (a +:+ b +:+ c)). by f_equal.
Qed.

Lemma substring_trans a b c : substring a b → substring b c → substring a c.
Proof.
  intros (before1 & after1 & ->) (before2 & after2 & ->).
  exists (before2 +:+ before1), (after1 +:+ after2).
  by rewrite !string_app_assoc.
Qed.

Lemma lower_empty s : lower s = "" ↔ s = "".
Proof. by destruct s. Qed.

Lemma sublist_filter_impl {A} (P Q : A → Prop)
    `{∀ x, Decision (P x)} `{∀ x, Decision (Q x)} (l : list A) :
  (∀ x, P x → Q x) → filter P l `sublist_of` filter Q l.
Proof.
  intros Himpl. induction l as [|x l IH]; [done|].
  rewrite !filter_cons. destruct (decide (P x)) as [HP | HP].
  - rewrite decide_True by auto. by apply sublist_skip.
  - destruct (decide (Q x)); [by apply sublist_cons | done].
Qed.

Section Finding.
Context {doc : Type} `{Builtins doc}.

Lemma search_entries_term search_type term1 term2 books :
  lower term1 = lower term2 →
  ∀ results,
    search_entries search_type term1 books results
    = search_entries search_type term2 books results.
Proof.
  intros Hterm. induction books as [|entry rest IH]; intros results; [done|].
  simpl. destruct (getitem entry (search_key search_type)); [|done].
  simpl. unfold str_lower. rewrite Hterm. by rewrite !IH.
Qed.

(** X6: the search does not look at the case of the term: two terms that
    are equal once lowercased give the same results and the same display,
    on any collection. *)
Theorem search_ignores_case_of_term (w : world doc) search_type term1 term2 :
  lower term1 = lower term2 →
  search_books search_type term1 w = search_books search_type term2 w.
Proof.
  intros Hterm. unfold search_books.
  assert (truthy (JStr term1) = truthy (JStr term2)) as ->.
  { simpl. f_equal.
    destruct (String.eqb_spec term1 "") as [-> | Hne1];
      destruct (String.eqb_spec term2 "") as [-> | Hne2]; try done.
    - symmetry in Hterm. by apply (proj1 (lower_empty term2)) in Hterm.
    - by apply (proj1 (lower_empty term1)) in Hterm. }
  destruct (truthy (JStr term2)); [|done].
  destruct (iterate (library w)) as [books|]; [|done]. simpl.
  by rewrite (search_entries_term search_type term1 term2).
Qed.

(** X7: a longer term finds less.  On a collection of books, when what
    [str.lower] makes of the first term occurs in what it makes of the
    second term, the results for the second are results for the first, in
    the same order. *)
Theorem search_narrows (w : world doc) books search_type key term1 term2 :
  library w = JArr books →
  Forall is_book books →
  (search_type, key) ∈ [("Title", "title"); ("Author", "author"); ("Genre", "genre")] →
  term1 ≠ "" →
  term2 ≠ "" →
  substring (str_lower term1) (str_lower term2) →
  ∃ results1 results2 w1 w2,
    search_books search_type term1 w = Done (Some results1, w1) ∧
    search_books search_type term2 w = Done (Some results2, w2) ∧
    results2 `sublist_of` results1.
Proof.
  intros Hlib Hbooks Hchoice Hterm1 Hterm2 Hsub.
  destruct (search_key_choice _ _ Hchoice) as [Hkey Hreq].
  destruct (search_books_eq w books search_type key term1) as (w1 & Hs1 & _); try done.
  destruct (search_books_eq w books search_type key term2) as (w2 & Hs2 & _); try done.
  eexists _, _, w1, w2. split; [exact Hs1|]. split; [exact Hs2|].
  apply sublist_filter_impl. intros entry.
  destruct entry as [| | | | | |fields]; try done. simpl.
  destruct (fields !! key); [|done]. intros Hin. by eapply substring_trans.
Qed.

Lemma show_results_eq results : Forall is_book results →
  ∀ w : world doc,
    show_results results w =
      Done (World (library w) (library_json w)
              (ui w ++ ((λ entry, book_card entry (status_of entry)) <$> results))).
Proof.
  induction 1 as [|entry rest Hentry _ IH]; intros w.
  - simpl. rewrite app_nil_r. by destruct w.
  - destruct entry as [| | | | | |fields]; try done.
    destruct (is_book_lookup fields "read" Hentry) as [r Hr]; [compute_done|].
    destruct (is_book_lookup fields "title" Hentry) as [t Ht]; [compute_done|].
    destruct (is_book_lookup fields "author" Hentry) as [a Ha]; [compute_done|].
    destruct (is_book_lookup fields "year" Hentry) as [y Hy]; [compute_done|].
    destruct (is_book_lookup fields "genre" Hentry) as [g Hg]; [compute_done|].
    simpl. rewrite Hr, Ht, Ha, Hy, Hg. simpl. rewrite IH. simpl.
    by rewrite <- app_assoc.
Qed.

(** X8: what a search displays.  On a collection of books and a non-empty
    term it shows the warning 'No matching books found' when no book
    matches, and otherwise the count of the matches followed by one card
    per match, in collection order, marked read when the book's 'read' is
    true. *)
Theorem search_books_display (w : world doc) books search_type key search_term :
  library w = JArr books →
  Forall is_book books →
  (search_type, key) ∈ [("Title", "title"); ("Author", "author"); ("Genre", "genre")] →
  search_term ≠ "" →
  ∃ results w',
    search_books search_type search_term w = Done (Some results, w') ∧
    ui w' =
      (ui w ++
       match results with
       | [] => [st_warning "No matching books found"]
       | _ => st_success ("📖 Found " +:+ str_of_nat (length results) +:+ " results:")
              :: ((λ entry, book_card entry (status_of entry)) <$> results)
       end)%list.
Proof.
  intros Hlib Hbooks Hchoice Hterm.
  destruct (search_key_choice _ _ Hchoice) as [Hkey Hreq].
  unfold search_books. apply truthy_str in Hterm. rewrite Hterm, Hlib. simpl.
  rewrite (search_entries_eq search_type search_term key books Hkey Hreq Hbooks).
  simpl.
  set (results := filter (contains_ignoring_case key search_term) books).
  assert (Forall is_book results) as Hresults.
  { apply Forall_forall. intros entry Hentry.
    apply list_elem_of_filter in Hentry as [_ Hentry].
    rewrite Forall_forall in Hbooks. auto. }
  destruct results as [|entry rest] eqn:Hres.
  - eexists _, _. split; [reflexivity | done].
  - change (truthy (JArr (entry :: rest))) with true. cbv iota.
    rewrite show_results_eq by done. simpl.
    eexists _, _. split; [reflexivity|]. simpl. by rewrite <- app_assoc.
Qed.

(** X9: a book that lacks the searched key stops the search.  When the
    entries before it are dicts that have the key, the search raises
    [KeyError] for that key and reports nothing. *)
Theorem search_books_missing_key (w : world doc) before fields after
    search_type search_term :
  library w = JArr (before ++ JObj fields :: after) →
  Forall (λ entry, ∃ value, getitem entry (search_key search_type) = Done value) before →
  fields !! search_key search_type = None →
  search_term ≠ "" →
  search_books search_type search_term w = Raised (KeyError (search_key search_type)).
Proof.
  intros Hlib Hbefore Hmissing Hterm.
  unfold search_books. apply truthy_str in Hterm. rewrite Hterm, Hlib. simpl.
  assert (∀ results,
    search_entries search_type search_term (before ++ JObj fields :: after) results
    = Raised (KeyError (search_key search_type))) as ->; [|done].
  clear Hlib.
  induction Hbefore as [|entry rest [value Hvalue] _ IH]; intros results.
  - simpl. by rewrite Hmissing.
  - simpl. rewrite Hvalue. simpl.
    by destruct (py_in _ _); rewrite IH.
Qed.

(** X10: a book that was just added is found by its title.  After an
    accepted submission on a collection of books, a search by title for any
    non-empty term succeeds, and its last result is the new book when what
    [str.lower] makes of the term occurs in what it makes of the title. *)
Theorem added_book_is_found (w : world doc) books form search_term :
  library w = JArr books →
  Forall is_book books →
  submitted form = true → title form ≠ "" → author form ≠ "" →
  search_term ≠ "" →
  substring (str_lower search_term) (str_lower (title form)) →
  ∃ w1 results w2,
    add_book form w = Done w1 ∧
    search_books "Title" search_term w1 = Done (Some results, w2) ∧
    last results = Some (book (title form) (author form) (year form) (genre form)
                           (JBool (read_status form =? "Read"))).
Proof.
  intros Hlib Hbooks Hsub Ht Ha Hterm Hin.
  set (new := book (title form) (author form) (year form) (genre form)
                (JBool (read_status form =? "Read"))).
  assert (is_book new) as Hnew by (repeat constructor; compute_done).
  eexists. rewrite (add_book_accepted form w books) by done.
  destruct (search_books_eq
              (World (JArr (books ++ [new]))
                 (Some (json_dumps None (JArr (books ++ [new]))))
                 (ui w ++ [st_success "📚 Book added successfully!"; st_balloons]))
              (books ++ [new]) "Title" "title" search_term)
    as (w2 & Hsearch & _); try done.
  { apply Forall_app. split; [done | by apply Forall_singleton]. }
  { compute_done. }
  eexists _, w2. split; [done|]. split; [exact Hsearch|].
  rewrite filter_app, filter_cons, decide_True; [by rewrite filter_nil, last_snoc|].
  unfold new, book. simpl.
  replace (_ !! "title") with (Some (JStr (title form))) by (vm_compute; reflexivity).
  done.
Qed.

(** X11: an added book survives the next run.  When [json.load] reads back
    what [json.dump] writes, loading the file that an accepted submission
    saved gives the old collection of well-formed books followed by the new
    book. *)
Theorem added_book_is_reloaded (w : world doc) books form :
  lossless →
  library w = JArr books →
  Forall (λ entry, is_book entry ∧ ¬ read_is_str entry) books →
  submitted form = true → title form ≠ "" → author form ≠ "" →
  ∃ w1,
    add_book form w = Done w1 ∧
    library (load_library w1) =
      JArr (books ++ [book (title form) (author form) (year form) (genre form)
                        (JBool (read_status form =? "Read"))]).
Proof.
  intros Hcodec Hlib Hbooks Hsub Ht Ha.
  set (new := book (title form) (author form) (year form) (genre form)
                (JBool (read_status form =? "Read"))).
  eexists. rewrite (add_book_accepted form w books) by done. split; [done|].
  rewrite (load_library_array _ (json_dumps None (JArr (books ++ [new]))) (books ++ [new]));
    [|done|apply Hcodec].
  simpl. rewrite load_keeps_valid_books; [done|].
  apply Forall_app. split; [done|]. apply Forall_singleton. split.
  - repeat constructor; compute_done.
  - unfold new, book, read_is_str.
    replace (_ !! "read") with (Some (JBool (read_status form =? "Read")))
      by (vm_compute; reflexivity).
    by intros [].
Qed.

End Finding.

(** ** More on import *)

Section Importing.
Context {doc : Type} `{Builtins doc}.

(** X12: what is left of an import on the next run.  When [json.load] reads
    back what [json.dump] writes and the upload is an array, the run after
    the import loads, from the file the import saved, only the five-key
    dicts of the upload, each with a string 'read' turned into "is 'true'
    up to case": an entry that lacks 'read' is gone and 'yes' has become
    False. *)
Theorem import_then_next_run (w : world doc) text data :
  lossless →
  json_loads text = Parsed (JArr data) →
  library (file_handling (Some text) w).2 = JArr data ∧
  library (load_library (file_handling (Some text) w).2)
    = JArr (read_as_boolean <$> filter is_book data).
Proof.
  intros Hcodec Hparse. rewrite (file_handling_import w text (JArr data)) by done.
  split; [done|].
  by rewrite (load_library_array _ (json_dumps None (JArr data)) data);
    [|done|apply Hcodec].
Qed.

(** X13: an upload whose root is not an array is imported all the same: it
    becomes the collection and overwrites the file under the message of
    success.  When [json.load] reads back what [json.dump] writes, the next
    run finds that file, shows the format error and starts from an empty
    collection. *)
Theorem import_of_non_array (w : world doc) text root :
  lossless →
  json_loads text = Parsed root →
  isinstance_list root = false →
  (file_handling (Some text) w).2 =
    World root (Some (json_dumps None root))
      (ui w ++ [st_success "✅ Library imported successfully!"]) ∧
  load_library (file_handling (Some text) w).2 =
    World (JArr []) (Some (json_dumps None root))
      (ui w ++ [st_success "✅ Library imported successfully!";
                st_error "⚠️ Invalid library format: Resetting to empty library"]).
Proof.
  intros Hcodec Hparse Hroot. rewrite (file_handling_import w text root) by done.
  split; [done|]. unfold load_library. simpl. rewrite Hcodec.
  destruct root; try done; unfold set_library, show; simpl; by rewrite <- app_assoc.
Qed.

(** X14: an upload that does not parse changes neither the collection nor
    the file, in the [file_handling] the script runs and in the one it
    replaces; the latter also refuses, in the same way, an upload whose
    root is not an array. *)
Theorem failed_import_keeps_library (w : world doc) text :
  (∀ message, json_loads text = JSONDecodeError message →
     library (file_handling (Some text) w).2 = library w ∧
     library_json (file_handling (Some text) w).2 = library_json w ∧
     ui (file_handling (Some text) w).2 = (ui w ++ [st_error ("Error: " +:+ message)])%list) ∧
  ((∃ message, json_loads text = JSONDecodeError message) ∨
   (∃ root, json_loads text = Parsed root ∧ isinstance_list root = false) →
     library (file_handling_shadowed (Some text) w).2 = library w ∧
     library_json (file_handling_shadowed (Some text) w).2 = library_json w).
Proof.
  split.
  - intros message Hparse. unfold file_handling. by rewrite Hparse.
  - intros Hbad. unfold file_handling_shadowed.
    destruct (truthy (library w));
      destruct Hbad as [[message ->] | (root & -> & Hroot)]; try done;
      by destruct root.
Qed.

Lemma repaired_dicts data :
  length (omap repaired data)
  + length (filter (λ entry, isinstance_dict entry = false) data) = length data.
Proof.
  induction data as [|entry rest IH]; [done|].
  rewrite filter_cons.
  unfold omap in *.
  destruct entry; cbn [isinstance_dict];
    try (rewrite decide_True by done; simpl; lia).
  rewrite decide_False by done. simpl. lia.
Qed.

(** X15: the report of the first [file_handling].  On an uploaded array it
    keeps the dicts, counts every other entry, so that kept and skipped add
    up to the length of the upload, saves the kept ones, announces their
    number and, only when some entry was skipped, warns with that count. *)
Theorem shadowed_import_report (w : world doc) text data :
  json_loads text = Parsed (JArr data) →
  ∃ books skipped,
    length books + skipped = length data ∧
    library (file_handling_shadowed (Some text) w).2 = JArr books ∧
    library_json (file_handling_shadowed (Some text) w).2
      = Some (json_dumps None (JArr books)) ∧
    ui (file_handling_shadowed (Some text) w).2 =
      (ui w ++
       (if truthy (library w) then [] else [st_warning "No data to export"]) ++
       [st_success ("✅ Imported " +:+ str_of_nat (length books) +:+ " valid books")] ++
       match skipped with
       | 0 => []
       | _ => [st_warning ("Skipped " +:+ str_of_nat skipped +:+ " invalid entries")]
       end)%list.
Proof.
  intros Hparse.
  exists (omap repaired data),
    (length (filter (λ entry, isinstance_dict entry = false) data)).
  split; [apply repaired_dicts|].
  unfold file_handling_shadowed.
  destruct (truthy (library w)); rewrite Hparse, import_entries_eq; simpl;
    destruct (length (filter _ data)); simpl; by rewrite <- ?app_assoc.
Qed.

Lemma repaired_fixpoint entry fixed :
  repaired entry = Some fixed →
  repaired fixed = Some fixed ∧ ¬ read_is_str fixed ∧
  (is_book entry → is_book fixed).
Proof.
  destruct entry as [| | | | | |fields]; try done. simpl. intros [= <-].
  set (read := match fields !! "read" with
               | None => JBool false
               | Some (JStr s) => JBool (bool_decide (lower s ∈ ["true"; "1"; "yes"]))
               | Some value => value
               end).
  assert (∀ s, read ≠ JStr s) as Hread.
  { intros s. unfold read. by destruct (fields !! "read") as [[]|]. }
  split; [|split].
  - simpl. rewrite lookup_insert_eq, insert_insert_eq.
    destruct read; try done. by destruct (Hread s).
  - simpl. rewrite lookup_insert_eq. destruct read; try by intros []. by destruct (Hread s).
  - simpl. intros Hall. eapply Forall_impl; [exact Hall|].
    intros key Hkey. simpl. rewrite lookup_insert. by case_decide.
Qed.

Lemma omap_repaired_fixpoint (data : list json) :
  omap repaired (omap repaired data) = omap repaired data.
Proof.
  assert (∀ x (l : list json), omap repaired (x :: l) =
            match repaired x with
            | Some y => y :: omap repaired l
            | None => omap repaired l
            end) as Hcons by done.
  induction data as [|entry rest IH]; [done|]. rewrite Hcons.
  destruct (repaired entry) as [fixed|] eqn:Hfix; [|done]. rewrite Hcons.
  destruct (repaired_fixpoint entry fixed Hfix) as [-> _]. by rewrite IH.
Qed.

(** X16: the repair of the first [file_handling] is stable.  Every entry it
    keeps has a 'read' that is not a string, and, when [json.load] reads
    back what [json.dumps] writes, importing the export of what it imported
    gives the same collection again. *)
Theorem shadowed_import_is_stable (w : world doc) text data :
  lossless →
  json_loads text = Parsed (JArr data) →
  ∃ books,
    library (file_handling_shadowed (Some text) w).2 = JArr books ∧
    Forall (λ entry, isinstance_dict entry = true ∧
                     (∃ read, getitem entry "read" = Done read) ∧
                     ¬ read_is_str entry) books ∧
    library (file_handling_shadowed (Some (json_dumps (Some 2) (JArr books)))
               (file_handling_shadowed (Some text) w).2).2 = JArr books.
Proof.
  intros Hcodec Hparse. exists (omap repaired data).
  destruct (file_handling_shadowed_import w text data Hparse) as [Hlib _].
  split; [done|]. split.
  - apply Forall_forall. intros fixed Hfixed.
    apply list_elem_of_omap in Hfixed as (entry & _ & Hfix).
    destruct (repaired_fixpoint entry fixed Hfix) as (_ & Hread & _).
    destruct entry as [| | | | | |fields]; try done. simpl in Hfix.
    injection Hfix as <-. split; [done|]. split; [|done].
    simpl. rewrite lookup_insert_eq. by eexists.
  - destruct (file_handling_shadowed_import (file_handling_shadowed (Some text) w).2
                (json_dumps (Some 2) (JArr (omap repaired data))) (omap repaired data))
      as [-> _]; [apply Hcodec|].
    by rewrite omap_repaired_fixpoint.
Qed.

(** X17: the two validators in a row.  When [json.load] reads back what
    [json.dump] writes, loading the file saved by the first [file_handling]
    keeps, of the repaired dicts, those that have the five keys, and changes
    none of them: after the repair the coercion of the load has nothing
    left to do. *)
Theorem shadowed_import_then_load (w : world doc) text data :
  lossless →
  json_loads text = Parsed (JArr data) →
  library (load_library (file_handling_shadowed (Some text) w).2)
    = JArr (filter is_book (omap repaired data)).
Proof.
  intros Hcodec Hparse.
  destruct (file_handling_shadowed_import w text data Hparse) as [_ Hfile].
  rewrite (load_library_array _ (json_dumps None (JArr (omap repaired data)))
             (omap repaired data)); [|done|apply Hcodec].
  simpl. f_equal.
  rewrite <- (list_fmap_id (filter is_book (omap repaired data))) at 2.
  apply list_fmap_ext. intros i fixed Hfixed.
  apply list_elem_of_lookup_2, list_elem_of_filter in Hfixed as [_ Hfixed].
  apply list_elem_of_omap in Hfixed as (entry & _ & Hfix).
  destruct (repaired_fixpoint entry fixed Hfix) as (_ & Hread & _).
  by apply read_as_boolean_id.
Qed.

End Importing.

(** ** The overview *)

(** The keys a card of the overview reads, in the order it reads them. *)
Definition card_lookups : list string := ["read"; "title"; "author"; "year"; "genre"].

Lemma library_cards_eq books : Forall is_book books →
  ∀ idx cards,
    library_cards idx books cards =
      Done (cards ++ imap (λ i entry,
                             overview_card ((idx + i) mod 3) entry (status_of entry)) books)%list.
Proof.
  induction 1 as [|entry rest Hentry _ IH]; intros idx cards.
  - simpl. by rewrite app_nil_r.
  - destruct entry as [| | | | | |fields]; try done.
    destruct (is_book_lookup fields "read" Hentry) as [r Hr]; [compute_done|].
    destruct (is_book_lookup fields "title" Hentry) as [t Ht]; [compute_done|].
    destruct (is_book_lookup fields "author" Hentry) as [a Ha]; [compute_done|].
    destruct (is_book_lookup fields "year" Hentry) as [y Hy]; [compute_done|].
    destruct (is_book_lookup fields "genre" Hentry) as [g Hg]; [compute_done|].
    cbn [library_cards getitem]. rewrite Hr, Ht, Ha, Hy, Hg.
    cbn [mbind outcome_bind]. rewrite IH, imap_cons, <- app_assoc.
    unfold status_of at 2. rewrite Hr, Nat.add_0_r. cbn [app]. do 3 f_equal.
    apply imap_ext. intros i x _. unfold compose.
    by replace (S idx + i) with (idx + S i) by lia.
Qed.

Lemma library_cards_missing before fields after key position :
  Forall is_book before →
  list_find (λ key, fields !! key = None) card_lookups = Some (position, key) →
  ∀ idx cards,
    library_cards idx (before ++ JObj fields :: after) cards = Raised (KeyError key).
Proof.
  intros Hbefore Hfind.
  induction Hbefore as [|entry rest Hentry _ IH]; intros idx cards.
  - apply list_find_Some in Hfind as (Hkey & Hnone & Hearlier).
    assert (∀ j y, card_lookups !! j = Some y → j < position →
                   ∃ value, fields !! y = Some value) as Hpresent.
    { intros j y Hy Hj. destruct (fields !! y) eqn:Hlookup; [by eexists|].
      by destruct (Hearlier j y Hy Hj). }
    cbn [app library_cards getitem].
    destruct position as [|[|[|[|[|?]]]]]; try done; injection Hkey as <-.
    + by rewrite Hnone.
    + destruct (Hpresent 0 "read" eq_refl ltac:(lia)) as [? ->].
      by rewrite Hnone.
    + destruct (Hpresent 0 "read" eq_refl ltac:(lia)) as [? ->].
      destruct (Hpresent 1 "title" eq_refl ltac:(lia)) as [? ->].
      by rewrite Hnone.
    + destruct (Hpresent 0 "read" eq_refl ltac:(lia)) as [? ->].
      destruct (Hpresent 1 "title" eq_refl ltac:(lia)) as [? ->].
      destruct (Hpresent 2 "author" eq_refl ltac:(lia)) as [? ->].
      by rewrite Hnone.
    + destruct (Hpresent 0 "read" eq_refl ltac:(lia)) as [? ->].
      destruct (Hpresent 1 "title" eq_refl ltac:(lia)) as [? ->].
      destruct (Hpresent 2 "author" eq_refl ltac:(lia)) as [? ->].
      destruct (Hpresent 3 "year" eq_refl ltac:(lia)) as [? ->].
      by rewrite Hnone.
  - destruct entry as [| | | | | |fields']; try done.
    destruct (is_book_lookup fields' "read" Hentry) as [r Hr]; [compute_done|].
    destruct (is_book_lookup fields' "title" Hentry) as [t Ht]; [compute_done|].
    destruct (is_book_lookup fields' "author" Hentry) as [a Ha]; [compute_done|].
    destruct (is_book_lookup fields' "year" Hentry) as [y Hy]; [compute_done|].
    destruct (is_book_lookup fields' "genre" Hentry) as [g Hg]; [compute_done|].
    change ((JObj fields' :: rest) ++ JObj fields :: after)%list
      with (JObj fields' :: (rest ++ JObj fields :: after))%list.
    cbn [library_cards getitem]. rewrite Hr, Ht, Ha, Hy, Hg.
    cbn [mbind outcome_bind]. apply IH.
Qed.

Lemma library_cards_shadowed_length books :
  Forall (λ entry, isinstance_dict entry = true) books →
  ∀ idx cards, ∃ more,
    library_cards_shadowed idx books cards = Done (cards ++ more)%list ∧
    length more = length books.
Proof.
  induction 1 as [|entry rest Hentry _ IH]; intros idx cards.
  - exists []. by rewrite app_nil_r.
  - destruct entry as [| | | | | |fields]; try done.
    cbn [library_cards_shadowed get mbind outcome_bind].
    edestruct IH as (more & -> & Hlength).
    eexists (_ :: more). rewrite <- app_assoc. split; [done|].
    simpl. by rewrite Hlength.
Qed.

Section Overview.
Context {doc : Type} `{Builtins doc}.

Lemma library_view_books (w : world doc) books :
  library w = JArr books → Forall is_book books →
  library_view w =
    Done match books with
         | [] => [st_info "Your library is empty. Add some books!"]
         | _ => imap (λ i entry, overview_card (i mod 3) entry (status_of entry)) books
         end.
Proof.
  intros Hlib Hbooks. unfold library_view. rewrite Hlib.
  destruct books as [|entry rest]; [done|].
  change (truthy (JArr (entry :: rest))) with true.
  cbn [negb iterate mbind outcome_bind].
  by rewrite library_cards_eq.
Qed.

(** X18: the overview of a run.  Whatever the file holds, [library_view]
    on what [load_library] leaves never raises: it shows the invitation to
    add books when the collection is empty, and otherwise one card per
    book, in order, dealt over three columns by position, each marked read
    when the book's 'read' is true. *)
Theorem library_view_after_load (w : world doc) :
  ∃ books,
    library (load_library w) = JArr books ∧
    library_view (load_library w) =
      Done match books with
           | [] => [st_info "Your library is empty. Add some books!"]
           | _ => imap (λ i entry, overview_card (i mod 3) entry (status_of entry)) books
           end.
Proof.
  destruct (load_library_collection w) as (books & Hlib & Hbooks).
  exists books. split; [done|].
  apply library_view_books; [done | by apply wellformed_books].
Qed.

(** X19: the overview needs every key of every book.  On a collection
    whose first entry that is not a five-key dict is a dict, [library_view]
    raises [KeyError] for the first key it fails to find there, reading
    'read', 'title', 'author', 'year', 'genre' in this order, and shows
    nothing. *)
Theorem library_view_missing_key (w : world doc) before fields after key position :
  library w = JArr (before ++ JObj fields :: after) →
  Forall is_book before →
  list_find (λ key, fields !! key = None) card_lookups = Some (position, key) →
  library_view w = Raised (KeyError key).
Proof.
  intros Hlib Hbefore Hfind. unfold library_view. rewrite Hlib.
  assert (truthy (JArr (before ++ JObj fields :: after)) = true) as ->
    by by destruct before.
  cbn [negb iterate mbind outcome_bind].
  by eapply library_cards_missing.
Qed.

(** X20: the first [library_view], which the script does not run, is the
    tolerant one: on a non-empty collection of dicts, whatever keys they
    have, it never raises and shows one card per entry. *)
Theorem library_view_shadowed_tolerates (w : world doc) books :
  library w = JArr books →
  books ≠ [] →
  Forall (λ entry, isinstance_dict entry = true) books →
  ∃ cards, library_view_shadowed w = Done cards ∧ length cards = length books.
Proof.
  intros Hlib Hsome Hdicts. unfold library_view_shadowed. rewrite Hlib.
  assert (truthy (JArr books) = true) as -> by by destruct books.
  cbn [negb iterate mbind outcome_bind].
  destruct (library_cards_shadowed_length books Hdicts 0 []) as (more & -> & Hlength).
  by exists more.
Qed.

End Overview.

(** ** Removing *)

Lemma filter_ext_elem {A} (P Q : A → Prop)
    `{∀ x, Decision (P x)} `{∀ x, Decision (Q x)} (l : list A) :
  (∀ x, x ∈ l → P x ↔ Q x) → filter P l = filter Q l.
Proof.
  induction l as [|x l IH]; intros Hiff; [done|].
  rewrite !filter_cons, IH by (intros y Hy; apply Hiff; by right).
  destruct (decide (P x)) as [HP | HP].
  - by rewrite decide_True by (apply Hiff; [left | done]).
  - rewrite decide_False; [done|]. intros HQ. apply HP, Hiff; [left | done].
Qed.

Lemma imap_pair_snd {A} (l : list A) : ∀ k, (imap (λ i, pair (k + i)) l).*2 = l.
Proof.
  induction l as [|x l IH]; intros k; [done|].
  rewrite imap_cons. cbn [fmap list_fmap snd]. f_equal.
  rewrite <- (IH (S k)) at 2. f_equal. apply imap_ext. intros i y _.
  unfold compose. f_equal. lia.
Qed.

(** Fewer labels than rows: some row has lost its label. *)
Lemma missing_label (edited_index : list nat) rows :
  length edited_index < rows → ∃ i, i < rows ∧ i ∉ edited_index.
Proof.
  intros Hshort.
  destruct (decide (Forall (λ i, i ∈ edited_index) (seq 0 rows))) as [Hall | Hsome].
  - assert (seq 0 rows ⊆+ edited_index) as Hsub.
    { apply NoDup_submseteq; [apply NoDup_seq|]. by apply Forall_forall. }
    apply submseteq_length in Hsub. rewrite length_seq in Hsub. lia.
  - apply not_Forall_Exists in Hsome; [|apply _].
    apply Exists_exists in Hsome as (i & Hi & Hnot).
    exists i. split; [|done]. apply elem_of_seq in Hi. lia.
Qed.

Section Removing.
Context {doc : Type} `{Builtins doc} `{Pandas}.

(** X21: a confirmed deletion keeps the rows that are still in the table.
    When pandas shows one row per book and the edited table has fewer rows
    than the collection, [remove_book] keeps exactly the books whose
    position is a label of the edited table, in their order, saves them,
    and the collection gets strictly shorter. *)
Theorem remove_book_keeps_edited_rows (w : world doc) books edited_index :
  library w = JArr books →
  DataFrame_display (JArr books) = Done (length books) →
  length edited_index < length books →
  ∃ kept,
    remove_book edited_index true w =
      Done (World (JArr kept) (Some (json_dumps None (JArr kept)))
              (ui w ++ [st_success "✅ Selected books removed successfully!"])) ∧
    kept = (filter (λ p, p.1 ∈ edited_index) (imap pair books)).*2 ∧
    kept `sublist_of` books ∧
    length kept < length books.
Proof.
  intros Hlib Hframe Hshort.
  exists ((filter (λ p, p.1 ∈ edited_index) (imap pair books)).*2).
  split; [|split; [done|split]].
  - unfold remove_book. rewrite Hlib.
    assert (truthy (JArr books) = true) as ->.
    { destruct books; [simpl in Hshort; lia | done]. }
    rewrite Hframe. cbn [negb mbind outcome_bind iterate].
    apply Nat.ltb_lt in Hshort as ->.
    unfold show, save_library, set_library. cbn [library library_json ui].
    rewrite (filter_ext_elem _ (λ p, p.1 ∈ edited_index)); [done|].
    intros [i entry] Hin. cbn [fst].
    apply elem_of_lookup_imap in Hin as (j & y & [= -> ->] & Hlookup).
    apply lookup_lt_Some in Hlookup.
    rewrite list_elem_of_filter, elem_of_seq.
    destruct (decide (j ∈ edited_index)); [|split; [|done]].
    + split; [done | by intros _ [Hnot _]].
    + intros Hnot. destruct Hnot. split; [done | lia].
  - rewrite <- (imap_pair_snd books 0) at 2.
    apply fmap_sublist, sublist_filter.
  - rewrite length_fmap.
    destruct (missing_label edited_index (length books) Hshort) as (i & Hi & Hnot).
    destruct (lookup_lt_is_Some_2 books i Hi) as [entry Hentry].
    rewrite <- (length_imap pair books).
    apply (length_filter_lt _ _ (i, entry)); [|done].
    by apply (elem_of_lookup_imap_2 pair).
Qed.

(** X22: nothing is removed unless the button is pressed on a table that
    got shorter.  When pandas shows one row per book, [remove_book] leaves
    a non-empty collection and the file as they are if the deletion is not
    confirmed, or if the edited table has at least as many rows as the
    collection, as it has after one row was deleted and another added. *)
Theorem remove_book_needs_shorter_table (w : world doc) books
    (edited_index : list nat) confirm :
  library w = JArr books →
  books ≠ [] →
  DataFrame_display (JArr books) = Done (length books) →
  confirm = false ∨ (length books ≤ length edited_index)%nat →
  remove_book edited_index confirm w = Done w.
Proof.
  intros Hlib Hsome Hframe Hkeep. unfold remove_book. rewrite Hlib.
  assert (truthy (JArr books) = true) as -> by by destruct books.
  rewrite Hframe. cbn [negb mbind outcome_bind].
  destruct Hkeep as [-> | Hlong]; [done|].
  destruct confirm; [|done].
  by apply Nat.ltb_ge in Hlong as ->.
Qed.

End Removing.

(** ** A run of [main] *)


Section Running.
Context {doc : Type} `{Builtins doc} `{Pandas}.

Lemma load_library_same (w w' : world doc) :
  library_json w' = library_json w → ui w' = ui w → load_library w' = load_library w.
Proof.
  intros Hfile Hui. destruct w as [lib file shown], w' as [lib' file' shown'].
  simpl in Hfile, Hui. subst file' shown'.
  unfold load_library, set_library, show. simpl.
  destruct file as [content|]; [|done].
  destruct (json_loads content) as [[| | | | |raw_data|]|]; try done.
  by rewrite !load_entries_eq.
Qed.

(** X23: a run starts from the file.  What [main] does and returns depends
    on [library.json], on the page and on what the user entered, and not on
    the collection the session held when the run began. *)
Theorem main_ignores_session (w w' : world doc) selected quick_add :
  library_json w' = library_json w → ui w' = ui w →
  main selected quick_add w' = main selected quick_add w.
Proof.
  intros Hfile Hui. unfold main. by rewrite (load_library_same w w').
Qed.

Lemma add_book_extends form (w : world doc) books :
  library w = JArr books →
  ∃ w1 extra,
    add_book form w = Done w1 ∧ library w1 = JArr (books ++ extra) ∧
    Forall is_book extra ∧ (length extra ≤ 1)%nat ∧
    (extra = [] → library_json w1 = library_json w).
Proof.
  intros Hlib. destruct (submitted form) eqn:Hsub.
  2:{ exists w, []. unfold add_book. rewrite Hsub, app_nil_r.
      repeat split; try done; simpl; lia. }
  destruct (decide (title form = "" ∨ author form = "")) as [Hempty | Hfull].
  - eexists _, []. rewrite add_book_empty_field, app_nil_r by done.
    repeat split; try done; simpl; lia.
  - assert (title form ≠ "" ∧ author form ≠ "") as [Ht Ha] by tauto.
    eexists _, [_]. rewrite (add_book_accepted form w books) by done.
    split; [done|]. split; [done|]. split; [|split; [simpl; lia | done]].
    apply Forall_singleton. repeat constructor; compute_done.
Qed.







(** X25: an upload can stop the run after it has replaced the file.  When
    the last entry of an uploaded array has no 'title' to give, because it
    is not a dict or lacks the key, the run on the data page overwrites
    [library.json] with the upload and then raises, in the sidebar, the
    exception of that lookup. *)
Theorem main_upload_without_title (w : world doc) text items latest e :
  json_loads text = Parsed (JArr (items ++ [latest])) →
  getitem latest "title" = Raised e →
  main (ManageData (Some text)) None w = Raised e ∧
  library_json (file_handling (Some text) (load_library w)).2
    = Some (json_dumps None (JArr (items ++ [latest]))).
Proof.
  intros Hparse Htitle. unfold main.
  rewrite (file_handling_import (load_library w) text (JArr (items ++ [latest]))) by done.
  split; [|done].
  cbn [mbind outcome_bind]. unfold library_snapshot. cbn [library].
  rewrite last_snoc, Htitle. done.
Qed.

Lemma show_results_library results : ∀ (w w1 : world doc),
  show_results results w = Done w1 → library w1 = library w.
Proof.
  induction results as [|entry rest IH]; intros w w1; simpl.
  - by intros [= <-].
  - destruct (getitem entry "read"); [|done]. simpl.
    destruct (getitem entry "title"); [|done]. simpl.
    destruct (getitem entry "author"); [|done]. simpl.
    destruct (getitem entry "year"); [|done]. simpl.
    destruct (getitem entry "genre"); [|done]. simpl.
    intros Hshow. by apply IH in Hshow.
Qed.

Lemma search_books_library search_type search_term (w w1 : world doc) results :
  search_books search_type search_term w = Done (results, w1) → library w1 = library w.
Proof.
  unfold search_books. destruct (truthy (JStr search_term)); [|by intros [= _ <-]].
  destruct (iterate (library w)) as [books|]; [|done]. simpl.
  destruct (search_entries search_type search_term books []) as [found|]; [|done].
  cbn [mbind outcome_bind].
  destruct found as [|entry rest]; cbn [truthy]; [by intros [= _ <-]|].
  destruct (show_results (entry :: rest) _) as [w2|] eqn:Hshow; [|done].
  cbn [mbind outcome_bind]. intros [= _ <-].
  by apply show_results_library in Hshow.
Qed.

(** X26: no page removes a book.  Whenever a run with the sidebar form
    closed returns and no file was uploaded, the collection it leaves is
    the collection it loaded, followed by at most one new book, and by none
    unless the page is the add page. *)
Theorem main_never_deletes (w w' : world doc) selected shown :
  main selected None w = Done (w', shown) →
  (∀ text, selected ≠ ManageData (Some text)) →
  ∃ books extra,
    library (load_library w) = JArr books ∧
    library w' = JArr (books ++ extra) ∧
    (length extra ≤ 1)%nat ∧
    (extra ≠ [] → ∃ form, selected = AddNewBook form).
Proof.
  intros Hmain Hpage. unfold main in Hmain.
  destruct (load_library_collection w) as (books & Hlib & _).
  exists books.
  assert (∃ w1 shown1 extra,
    match selected with
    | LibraryOverview => cards ← library_view (load_library w); Done (load_library w, cards)
    | AddNewBook form => w1 ← add_book form (load_library w); Done (w1, [])
    | SearchBooks search_type search_term =>
        '(_, w1) ← search_books search_type search_term (load_library w); Done (w1, [])
    | Statistics => w1 ← display_statistics (load_library w); Done (w1, [])
    | ManageData uploaded_file => Done ((file_handling uploaded_file (load_library w)).2, [])
    end = Done (w1, shown1) ∧
    library w1 = JArr (books ++ extra) ∧ (length extra ≤ 1)%nat ∧
    (extra ≠ [] → ∃ form, selected = AddNewBook form))
    as (w1 & shown1 & extra & Hpage1 & Hlib1 & Hextra & Hadd).
  { destruct selected as [|form|search_type search_term| |[text|]].
    - destruct (library_view (load_library w)) as [cards|]; [|done].
      eexists _, _, []. rewrite app_nil_r. split; [done|]. split; [done|].
      split; [simpl; lia | done].
    - destruct (add_book_extends form (load_library w) books Hlib)
        as (w1 & extra & -> & Hlib1 & _ & Hextra & _).
      eexists _, _, extra. split; [done|]. split; [done|]. split; [done|].
      intros _. by exists form.
    - destruct (search_books search_type search_term (load_library w))
        as [[results w1]|] eqn:Hsearch; [|done].
      apply search_books_library in Hsearch.
      eexists _, _, []. rewrite app_nil_r. split; [done|].
      split; [by rewrite Hsearch|]. split; [simpl; lia | done].
    - unfold display_statistics in *. rewrite Hlib in *.
      destruct (truthy (JArr books)); simpl in *.
      + destruct (statistics_charts (JArr books)); [|done].
        eexists _, _, []. rewrite app_nil_r. split; [done|]. split; [done|].
        split; [simpl; lia | done].
      + eexists _, _, []. rewrite app_nil_r. split; [done|]. split; [done|].
        split; [simpl; lia | done].
    - by destruct (Hpage text).
    - eexists _, _, []. rewrite app_nil_r. split; [done|]. split; [done|].
      split; [simpl; lia | done]. }
  rewrite Hpage1 in Hmain. cbn [mbind outcome_bind] in Hmain.
  destruct (library_snapshot w1); [|done]. injection Hmain as <- _.
  by exists extra.
Qed.

Lemma getitem_book_title t a y g r : getitem (book t a y g r) "title" = Done (JStr t).
Proof.
  unfold book, getitem.
  by replace (_ !! "title") with (Some (JStr t)) by (vm_compute; reflexivity).
Qed.

Lemma getitem_book_author t a y g r : getitem (book t a y g r) "author" = Done (JStr a).
Proof.
  unfold book, getitem.
  by replace (_ !! "author") with (Some (JStr a)) by (vm_compute; reflexivity).
Qed.

(** X27: the sidebar after an accepted submission.  On the add page, with
    the sidebar form closed, a run that accepts the form returns with the
    loaded collection followed by the new book, and its sidebar shows the
    new total and the title and author just entered as the latest
    addition. *)
Theorem main_add_page_shows_latest (w : world doc) form :
  submitted form = true → title form ≠ "" → author form ≠ "" →
  ∃ books w',
    library (load_library w) = JArr books ∧
    main (AddNewBook form) None w =
      Done (w', [st_metric "Total Books" (S (length books));
                 latest_addition (JStr (title form)) (JStr (author form))]) ∧
    library w' =
      JArr (books ++ [book (title form) (author form) (year form) (genre form)
                        (JBool (read_status form =? "Read"))]).
Proof.
  intros Hsub Ht Ha.
  destruct (load_library_collection w) as (books & Hlib & _).
  exists books. eexists. split; [done|].
  unfold main. rewrite (add_book_accepted form (load_library w) books) by done.
  cbn [mbind outcome_bind]. unfold library_snapshot. cbn [library].
  rewrite last_snoc, getitem_book_title, getitem_book_author.
  cbn [mbind outcome_bind]. rewrite length_app. cbn [length app].
  rewrite Nat.add_1_r. done.
Qed.

End Running.

(** ** These theorems at work on concrete files *)

(** Two books as [add_book] makes them. *)
Definition tidy_shelf : list json :=
  [book "Emma" "Jane Austen" 1815 "Fiction" (JBool true);
   book "Cosmos" "Carl Sagan" 1980 "Science" (JBool false)].

(** A form that is accepted. *)
Definition dune_form : add_book_form :=
  AddBookForm "Dune" 1965 "Frank Herbert" "Fiction" "Read" true.

Lemma tidy_shelf_wellformed :
  Forall (λ entry, is_book entry ∧ ¬ read_is_str entry) tidy_shelf.
Proof. repeat constructor; compute_done. Qed.

Lemma tidy_shelf_books : Forall is_book tidy_shelf.
Proof. repeat constructor; compute_done. Qed.

Lemma save_then_load_witness :
  let w := World (JArr tidy_shelf) None [] in
  library (@load_library _ parsed_files (@save_library _ parsed_files w)) = library w ∧
  ui (@load_library _ parsed_files (@save_library _ parsed_files w)) =
    (ui w ++ [st_toast ("Loaded " +:+ str_of_nat (length tidy_shelf) +:+ " valid books")
                "✅"])%list.
Proof.
  apply (@save_then_load _ parsed_files (World (JArr tidy_shelf) None []) tidy_shelf);
    [apply parsed_files_lossless | reflexivity | apply tidy_shelf_wellformed].
Defined.

Lemma load_library_reads_only_the_file_witness :
  let w := fresh_session (Some (Parsed (JArr shelf))) in
  let w' := World (JArr [JNull]) (Some (Parsed (JArr shelf))) [st_balloons] in
  library_json (@load_library _ parsed_files w) = library_json w ∧
  library (@load_library _ parsed_files w') = library (@load_library _ parsed_files w).
Proof.
  intros w w'.
  destruct (@load_library_reads_only_the_file _ parsed_files w w') as [Hfile Hsame].
  split; [exact Hfile | apply Hsame; reflexivity].
Defined.

Lemma load_save_load_witness :
  let w := fresh_session (Some (Parsed (JArr (JNull :: shelf)))) in
  library (@load_library _ parsed_files
             (@save_library _ parsed_files (@load_library _ parsed_files w)))
  = library (@load_library _ parsed_files w).
Proof.
  apply (@load_save_load _ parsed_files), parsed_files_lossless.
Defined.

Lemma load_accounts_for_every_entry_witness :
  let w := fresh_session (Some (Parsed (JArr (JNull :: shelf)))) in
  ∃ books warnings toast,
    library (@load_library _ parsed_files w) = JArr books ∧
    ui (@load_library _ parsed_files w) = (ui w ++ (st_warning <$> warnings) ++ [toast])%list ∧
    length books + length warnings = length (JNull :: shelf).
Proof.
  apply (@load_accounts_for_every_entry _ parsed_files _ (Parsed (JArr (JNull :: shelf))));
    reflexivity.
Defined.

Lemma load_changes_only_read_witness :
  let w := fresh_session (Some (Parsed (JArr (JNull :: shelf)))) in
  ∃ books,
    library (@load_library _ parsed_files w) = JArr books ∧
    Forall2 (λ kept original, ∀ key, key ≠ "read" → getitem kept key = getitem original key)
      books (filter is_book (JNull :: shelf)).
Proof.
  apply (@load_changes_only_read _ parsed_files _ (Parsed (JArr (JNull :: shelf))));
    reflexivity.
Defined.

Lemma search_ignores_case_of_term_witness :
  @search_books _ parsed_files "Genre" "FIC" (World (JArr shelf) None [])
  = @search_books _ parsed_files "Genre" "fic" (World (JArr shelf) None []).
Proof.
  apply (@search_ignores_case_of_term _ parsed_files). reflexivity.
Defined.

Lemma search_narrows_witness :
  ∃ results1 results2 w1 w2,
    @search_books _ parsed_files "Genre" "fic" (World (JArr shelf) None [])
      = Done (Some results1, w1) ∧
    @search_books _ parsed_files "Genre" "Fiction" (World (JArr shelf) None [])
      = Done (Some results2, w2) ∧
    results2 `sublist_of` results1.
Proof.
  apply (@search_narrows _ parsed_files (World (JArr shelf) None []) shelf
           "Genre" "genre" "fic" "Fiction");
    [reflexivity | apply shelf_books | compute_done | discriminate | discriminate |].
  exists "", "tion". reflexivity.
Defined.

Lemma search_books_display_witness :
  ∃ results w',
    @search_books _ parsed_files "Author" "sagan" (World (JArr shelf) None [])
      = Done (Some results, w') ∧
    ui w' =
      match results with
      | [] => [st_warning "No matching books found"]
      | _ => st_success ("📖 Found " +:+ str_of_nat (length results) +:+ " results:")
             :: ((λ entry, book_card entry (status_of entry)) <$> results)
      end.
Proof.
  apply (@search_books_display _ parsed_files (World (JArr shelf) None []) shelf
           "Author" "author" "sagan");
    [reflexivity | apply shelf_books | compute_done | discriminate].
Defined.

Lemma search_books_missing_key_witness :
  @search_books _ parsed_files "Genre" "fic"
    (World (JArr (shelf ++ [JObj {["title" := JStr "Untagged"]}])) None [])
  = Raised (KeyError "genre").
Proof.
  apply (@search_books_missing_key _ parsed_files
           (World (JArr (shelf ++ [JObj {["title" := JStr "Untagged"]}])) None [])
           shelf {["title" := JStr "Untagged"]} [] "Genre" "fic").
  - reflexivity.
  - repeat constructor; eexists; vm_compute; reflexivity.
  - vm_compute. reflexivity.
  - discriminate.
Defined.

Lemma added_book_is_found_witness :
  ∃ w1 results w2,
    @add_book _ parsed_files dune_form (World (JArr tidy_shelf) None []) = Done w1 ∧
    @search_books _ parsed_files "Title" "UN" w1 = Done (Some results, w2) ∧
    last results = Some (book "Dune" "Frank Herbert" 1965 "Fiction" (JBool true)).
Proof.
  apply (@added_book_is_found _ parsed_files (World (JArr tidy_shelf) None [])
           tidy_shelf dune_form "UN");
    [reflexivity | apply tidy_shelf_books | reflexivity | discriminate | discriminate
     | discriminate |].
  exists "d", "e". reflexivity.
Defined.

Lemma added_book_is_reloaded_witness :
  ∃ w1,
    @add_book _ parsed_files dune_form (World (JArr tidy_shelf) None []) = Done w1 ∧
    library (@load_library _ parsed_files w1) =
      JArr (tidy_shelf ++ [book "Dune" "Frank Herbert" 1965 "Fiction" (JBool true)]).
Proof.
  apply (@added_book_is_reloaded _ parsed_files (World (JArr tidy_shelf) None [])
           tidy_shelf dune_form);
    [apply parsed_files_lossless | reflexivity | apply tidy_shelf_wellformed
     | reflexivity | discriminate | discriminate].
Defined.

Lemma import_then_next_run_witness :
  let upload := [JObj {["title" := JStr "No read"]}; JInt 5;
                 book "Dune" "Frank Herbert" 1965 "Fiction" (JStr "yes")] in
  library (@file_handling _ parsed_files (Some (Parsed (JArr upload)))
             (fresh_session None)).2 = JArr upload ∧
  library (@load_library _ parsed_files
             (@file_handling _ parsed_files (Some (Parsed (JArr upload)))
                (fresh_session None)).2)
    = JArr (read_as_boolean <$> filter is_book upload).
Proof.
  intros upload.
  apply (@import_then_next_run _ parsed_files (fresh_session None)
           (Parsed (JArr upload)) upload);
    [apply parsed_files_lossless | reflexivity].
Defined.

Lemma import_of_non_array_witness :
  let w := fresh_session (Some (Parsed (JArr shelf))) in
  (@file_handling _ parsed_files (Some (Parsed (JInt 7))) w).2 =
    World (JInt 7) (Some (Parsed (JInt 7)))
      [st_success "✅ Library imported successfully!"] ∧
  @load_library _ parsed_files (@file_handling _ parsed_files (Some (Parsed (JInt 7))) w).2 =
    World (JArr []) (Some (Parsed (JInt 7)))
      [st_success "✅ Library imported successfully!";
       st_error "⚠️ Invalid library format: Resetting to empty library"].
Proof.
  apply (@import_of_non_array _ parsed_files
           (fresh_session (Some (Parsed (JArr shelf)))) (Parsed (JInt 7)) (JInt 7));
    [apply parsed_files_lossless | reflexivity | reflexivity].
Defined.

Lemma failed_import_keeps_library_witness :
  let w := World (JArr shelf) (Some (Parsed (JArr shelf))) [] in
  let bad := JSONDecodeError "Expecting value" in
  (library (@file_handling _ parsed_files (Some bad) w).2 = library w ∧
   library_json (@file_handling _ parsed_files (Some bad) w).2 = library_json w ∧
   ui (@file_handling _ parsed_files (Some bad) w).2
     = [st_error "Error: Expecting value"]) ∧
  (library (@file_handling_shadowed _ parsed_files (Some bad) w).2 = library w ∧
   library_json (@file_handling_shadowed _ parsed_files (Some bad) w).2 = library_json w).
Proof.
  intros w bad.
  destruct (@failed_import_keeps_library _ parsed_files w bad) as [Hlive Hshadowed].
  split.
  - apply (Hlive "Expecting value"). reflexivity.
  - apply Hshadowed. left. by exists "Expecting value".
Defined.

(** An upload with a dict that lacks 'read', a number and a book whose
    'read' is 'yes'. *)
Definition mixed_upload : list json :=
  [JObj {["title" := JStr "No read"]}; JInt 5;
   book "Dune" "Frank Herbert" 1965 "Fiction" (JStr "yes")].

Lemma shadowed_import_report_witness :
  let w := fresh_session None in
  let w' := (@file_handling_shadowed _ parsed_files (Some (Parsed (JArr mixed_upload))) w).2 in
  ∃ books skipped,
    length books + skipped = length mixed_upload ∧
    library w' = JArr books ∧
    library_json w' = Some (Parsed (JArr books)) ∧
    ui w' =
      ([st_warning "No data to export"] ++
       [st_success ("✅ Imported " +:+ str_of_nat (length books) +:+ " valid books")] ++
       match skipped with
       | 0 => []
       | _ => [st_warning ("Skipped " +:+ str_of_nat skipped +:+ " invalid entries")]
       end)%list.
Proof.
  apply (@shadowed_import_report _ parsed_files (fresh_session None)
           (Parsed (JArr mixed_upload)) mixed_upload).
  reflexivity.
Defined.

Lemma shadowed_import_is_stable_witness :
  let w := fresh_session None in
  let w' := (@file_handling_shadowed _ parsed_files (Some (Parsed (JArr mixed_upload))) w).2 in
  ∃ books,
    library w' = JArr books ∧
    Forall (λ entry, isinstance_dict entry = true ∧
                     (∃ read, getitem entry "read" = Done read) ∧
                     ¬ read_is_str entry) books ∧
    library (@file_handling_shadowed _ parsed_files (Some (Parsed (JArr books))) w').2
      = JArr books.
Proof.
  apply (@shadowed_import_is_stable _ parsed_files (fresh_session None)
           (Parsed (JArr mixed_upload)) mixed_upload);
    [apply parsed_files_lossless | reflexivity].
Defined.

Lemma shadowed_import_then_load_witness :
  library (@load_library _ parsed_files
             (@file_handling_shadowed _ parsed_files (Some (Parsed (JArr mixed_upload)))
                (fresh_session None)).2)
  = JArr (filter is_book (omap repaired mixed_upload)).
Proof.
  apply (@shadowed_import_then_load _ parsed_files (fresh_session None)
           (Parsed (JArr mixed_upload)) mixed_upload);
    [apply parsed_files_lossless | reflexivity].
Defined.

Lemma library_view_missing_key_witness :
  library_view
    (World (JArr (shelf ++ [JObj {["read" := JBool true]}; JNull])) (None : option parsed) [])
  = Raised (KeyError "title").
Proof.
  apply (library_view_missing_key
           (World (JArr (shelf ++ [JObj {["read" := JBool true]}; JNull]))
              (None : option parsed) [])
           shelf {["read" := JBool true]} [JNull] "title" 1).
  - reflexivity.
  - apply shelf_books.
  - vm_compute. reflexivity.
Defined.

Lemma library_view_shadowed_tolerates_witness :
  ∃ cards,
    library_view_shadowed
      (World (JArr [JObj ∅; JObj {["read" := JBool true]}]) (None : option parsed) [])
    = Done cards ∧
    length cards = 2.
Proof.
  apply (library_view_shadowed_tolerates
           (World (JArr [JObj ∅; JObj {["read" := JBool true]}]) (None : option parsed) [])
           [JObj ∅; JObj {["read" := JBool true]}]);
    [reflexivity | discriminate | repeat constructor].
Defined.

Lemma remove_book_keeps_edited_rows_witness :
  ∃ kept,
    @remove_book _ parsed_files one_row_per_book [1] true (World (JArr shelf) None []) =
      Done (World (JArr kept) (Some (Parsed (JArr kept)))
              [st_success "✅ Selected books removed successfully!"]) ∧
    kept = (filter (λ p, p.1 ∈ [1]) (imap pair shelf)).*2 ∧
    kept `sublist_of` shelf ∧
    length kept < length shelf.
Proof.
  apply (@remove_book_keeps_edited_rows _ parsed_files one_row_per_book
           (World (JArr shelf) None []) shelf [1]);
    [reflexivity | reflexivity | simpl; lia].
Defined.

Lemma remove_book_needs_shorter_table_witness :
  @remove_book _ parsed_files one_row_per_book [0; 2] true (World (JArr shelf) None [])
  = Done (World (JArr shelf) None []).
Proof.
  apply (@remove_book_needs_shorter_table _ parsed_files one_row_per_book
           (World (JArr shelf) None []) shelf [0; 2] true);
    [reflexivity | discriminate | reflexivity | right; simpl; lia].
Defined.

Lemma main_ignores_session_witness :
  @main _ parsed_files one_row_per_book LibraryOverview None
    (World (JArr [JNull]) (Some (Parsed (JArr shelf))) [])
  = @main _ parsed_files one_row_per_book LibraryOverview None
      (fresh_session (Some (Parsed (JArr shelf)))).
Proof.
  apply (@main_ignores_session _ parsed_files one_row_per_book
           (fresh_session (Some (Parsed (JArr shelf))))
           (World (JArr [JNull]) (Some (Parsed (JArr shelf))) []));
    reflexivity.
Defined.


Lemma main_upload_without_title_witness :
  let w := fresh_session (Some (Parsed (JArr shelf))) in
  @main _ parsed_files one_row_per_book
    (ManageData (Some (Parsed (JArr (shelf ++ [JInt 5]))))) None w = Raised TypeError ∧
  library_json
    (@file_handling _ parsed_files (Some (Parsed (JArr (shelf ++ [JInt 5]))))
       (@load_library _ parsed_files w)).2
    = Some (Parsed (JArr (shelf ++ [JInt 5]))).
Proof.
  apply (@main_upload_without_title _ parsed_files one_row_per_book
           (fresh_session (Some (Parsed (JArr shelf))))
           (Parsed (JArr (shelf ++ [JInt 5]))) shelf (JInt 5) TypeError);
    reflexivity.
Defined.

Lemma main_never_deletes_witness :
  ∃ books extra,
    library (@load_library _ parsed_files (fresh_session (Some (Parsed (JArr tidy_shelf)))))
      = JArr books ∧
    library (World (JArr (tidy_shelf ++ [book "Dune" "Frank Herbert" 1965 "Fiction"
                                           (JBool true)]))
               (Some (Parsed (JArr (tidy_shelf ++
                  [book "Dune" "Frank Herbert" 1965 "Fiction" (JBool true)]))))
               [st_toast "Loaded 2 valid books" "✅";
                st_success "📚 Book added successfully!"; st_balloons])
      = JArr (books ++ extra) ∧
    (length extra ≤ 1)%nat ∧
    (extra ≠ [] → ∃ form, AddNewBook dune_form = @AddNewBook parsed form).
Proof.
  apply (@main_never_deletes _ parsed_files one_row_per_book
           (fresh_session (Some (Parsed (JArr tidy_shelf)))) _ (AddNewBook dune_form)
           [st_metric "Total Books" 3;
            latest_addition (JStr "Dune") (JStr "Frank Herbert")]);
    [vm_compute; reflexivity | discriminate].
Defined.

Lemma main_add_page_shows_latest_witness :
  let w := fresh_session (Some (Parsed (JArr tidy_shelf))) in
  ∃ books w',
    library (@load_library _ parsed_files w) = JArr books ∧
    @main _ parsed_files one_row_per_book (AddNewBook dune_form) None w =
      Done (w', [st_metric "Total Books" (S (length books));
                 latest_addition (JStr "Dune") (JStr "Frank Herbert")]) ∧
    library w' =
      JArr (books ++ [book "Dune" "Frank Herbert" 1965 "Fiction" (JBool true)]).
Proof.
  apply (@main_add_page_shows_latest _ parsed_files one_row_per_book
           (fresh_session (Some (Parsed (JArr tidy_shelf)))) dune_form);
    [reflexivity | discriminate | discriminate].
Defined.
